(** * RCU API client (sample_app.py): a shallow embedding and its properties

    The program is a Python script: a class [RCUAPIClient] with four
    methods, each of which issues at most one HTTP request through the
    [requests] library and prints one status line, and a driver [main].

    The embedding follows the script line by line.  The methods are
    computations in a state-and-exception monad: the state holds the client
    object, the requests issued so far, the lines printed so far and the
    number of clock reads; a Python exception is a result [Raise e] that
    keeps the state reached when it was raised.  The outside world (what
    the server answers to the n-th request, what the clock shows) is an
    environment [Env] every computation is parametrised by. *)

From Stdlib Require Import String Ascii ZArith List Bool Lia.
From Stdlib Require Import Floats.SpecFloat.
Import ListNotations.
Open Scope string_scope.
Open Scope Z_scope.

Set Warnings "-register-all".

(** ** Python values *)

(** The values the script handles are those of JSON documents: what
    [response.json()] returns and what is sent as [json=payload].  A dict
    is an association list in insertion order with distinct keys.  A str
    is held as the bytes of its UTF-8 encoding; a lone surrogate (U+D800 to
    U+DFFF), which JSON text can escape and [json.loads] keeps but UTF-8
    has no place for, is held as the three bytes ED A0..BF xx. *)
Inductive pyval : Type :=
| PyNone
| PyBool (b : bool)
| PyInt (n : Z)
| PyFloat (f : spec_float)
| PyStr (s : string)
| PyList (l : list pyval)
| PyDict (d : list (string * pyval)).

(** Python's truth value, as tested by [not self.access_token]. *)
Definition truthy (v : pyval) : bool :=
  match v with
  | PyNone => false
  | PyBool b => b
  | PyInt n => negb (n =? 0)
  | PyFloat (S754_zero _) => false
  | PyFloat _ => true
  | PyStr s => negb (String.eqb s "")
  | PyList l => match l with [] => false | _ :: _ => true end
  | PyDict d => match d with [] => false | _ :: _ => true end
  end.

(** [d.get(key, default)] on the bindings of a dict. *)
Fixpoint dict_get (d : list (string * pyval)) (key : string) (default : pyval) : pyval :=
  match d with
  | [] => default
  | (k, v) :: d' => if String.eqb k key then v else dict_get d' key default
  end.

(** A byte of the form 10xxxxxx: it continues a character.  (The bits of
    an [ascii] come lowest first.) *)
Definition is_continuation (c : ascii) : bool :=
  match c with
  | Ascii _ _ _ _ _ _ b6 b7 => b7 && negb b6
  end.

(** The byte ED, 11101101. *)
Definition is_ED (c : ascii) : bool :=
  match c with
  | Ascii true false true true false true true true => true
  | _ => false
  end.

(** A byte from A0 to BF, 101xxxxx. *)
Definition is_A0_BF (c : ascii) : bool :=
  match c with
  | Ascii _ _ _ _ _ true false true => true
  | _ => false
  end.

(** [len(s)] for a str: the number of its characters. *)
Fixpoint str_len (s : string) : nat :=
  match s with
  | EmptyString => O
  | String c s' => if is_continuation c then str_len s' else S (str_len s')
  end.

(** Whether a str holds a surrogate: the byte ED followed by A0..BF. *)
Fixpoint has_surrogate (s : string) : bool :=
  match s with
  | EmptyString => false
  | String c s' =>
      match s' with
      | EmptyString => false
      | String c' _ => (is_ED c && is_A0_BF c') || has_surrogate s'
      end
  end.

(** Exceptions, by the classes the script can meet.  [RequestException]
    stands for [requests.exceptions.RequestException] and all its
    subclasses (connection errors, timeouts, and the JSON decoding error of
    current versions of the library). *)
Inductive exn : Type :=
| RequestException (msg : string)
| AttributeError (msg : string)
| TypeError (msg : string)
| KeyError (msg : string)
| ValueError (msg : string)
| UnicodeEncodeError (msg : string).

(** [isinstance(e, requests.exceptions.RequestException)] *)
Definition is_RequestException (e : exn) : bool :=
  match e with
  | RequestException _ => true
  | _ => false
  end.

Inductive result (A : Type) : Type :=
| Ok (a : A)
| Raise (e : exn).
Arguments Ok {A} a.
Arguments Raise {A} e.

(** A Python [str] assembled by the script: an f-string is the list of its
    literal parts and of the values it formats; [str(v)] is not evaluated. *)
Inductive piece : Type :=
| Lit (s : string)
| Fmt (v : pyval)
| FmtExn (e : exn).

Definition text : Type := list piece.

(** ** The HTTP library *)

Inductive Method : Type := GET | POST.

Record Request : Type := mkRequest {
  method : Method;
  url : string;
  headers : list (string * text);
  json_payload : option pyval
}.

(** A response object: its [status_code] and what calling its [json()]
    method gives, a decoded value or an exception. *)
Record Response : Type := mkResponse {
  status_code : Z;
  json : result pyval
}.

(** The outside world: the outcome of the n-th request issued (a response,
    or an exception raised by [requests.get]/[requests.post]) and the value
    of the n-th [datetime.now().isoformat()]. *)
Record Env : Type := mkEnv {
  network : nat -> Request -> result Response;
  now_isoformat : nat -> string
}.

(** ** Program state *)

Record RCUAPIClient : Type := mkClient {
  api_key : string;
  secret_key : string;
  client_id : string;
  access_token : pyval
}.

Record State : Type := mkState {
  self : RCUAPIClient;
  sent : list Request;
  stdout : list text;
  clock_reads : nat
}.

Definition M (A : Type) : Type := State -> result A * State.

Definition ret {A} (a : A) : M A := fun s => (Ok a, s).

Definition bind {A B} (m : M A) (k : A -> M B) : M B :=
  fun s =>
    match m s with
    | (Ok a, s') => k a s'
    | (Raise e, s') => (Raise e, s')
    end.

Definition raise {A} (e : exn) : M A := fun s => (Raise e, s).

(** [try: body / except requests.exceptions.RequestException as e: handler] *)
Definition try_except {A} (body : M A) (handler : exn -> M A) : M A :=
  fun s =>
    match body s with
    | (Ok a, s') => (Ok a, s')
    | (Raise e, s') =>
        if is_RequestException e then handler e s' else (Raise e, s')
    end.

Declare Scope py_scope.
Delimit Scope py_scope with py.
Notation "x <- m ;; k" := (bind m (fun x => k))
  (at level 61, m at next level, right associativity) : py_scope.
Notation "m ;; k" := (bind m (fun _ => k))
  (at level 61, right associativity) : py_scope.
Open Scope py_scope.

Definition get_self : M RCUAPIClient := fun s => (Ok (self s), s).

(** The four ways the script changes the state. *)
Definition with_token (v : pyval) (s : State) : State :=
  mkState (mkClient (api_key (self s)) (secret_key (self s)) (client_id (self s)) v)
    (sent s) (stdout s) (clock_reads s).

Definition with_line (t : text) (s : State) : State :=
  mkState (self s) (sent s) (stdout s ++ [t]) (clock_reads s).

Definition with_request (r : Request) (s : State) : State :=
  mkState (self s) (sent s ++ [r]) (stdout s) (clock_reads s).

Definition with_clock_read (s : State) : State :=
  mkState (self s) (sent s) (stdout s) (S (clock_reads s)).

(** [self.access_token = v] *)
Definition set_access_token (v : pyval) : M unit :=
  fun s => (Ok tt, with_token v s).

(** [client = RCUAPIClient(...)]: the state holds the one client object of
    the program. *)
Definition set_self (c : RCUAPIClient) : M unit :=
  fun s => (Ok tt, mkState c (sent s) (stdout s) (clock_reads s)).

(** What standard output, in UTF-8, can encode.  [str(v)] of a str is the
    str itself, surrogates included; of any other value it is made of
    digits, names and [repr]s, in which a surrogate is escaped.  The text
    of an exception is the library's own. *)
Definition printable_value (v : pyval) : bool :=
  match v with
  | PyStr s => negb (has_surrogate s)
  | _ => true
  end.

Definition printable_piece (p : piece) : bool :=
  match p with
  | Lit s => negb (has_surrogate s)
  | Fmt v => printable_value v
  | FmtExn _ => true
  end.

Definition printable (t : text) : bool := forallb printable_piece t.

(** [print(t)]: one more line on standard output, or [UnicodeEncodeError]
    and nothing written when the line cannot be encoded. *)
Definition print (t : text) : M unit :=
  fun s =>
    if printable t then (Ok tt, with_line t s)
    else (Raise (UnicodeEncodeError "surrogates not allowed"), s).

(** [datetime.now().isoformat()] *)
Definition datetime_now_isoformat (env : Env) : M string :=
  fun s => (Ok (now_isoformat env (clock_reads s)), with_clock_read s).

(** [requests.get] and [requests.post]: the request is recorded, the
    environment decides its outcome. *)
Definition send (env : Env) (r : Request) : M Response :=
  fun s => (network env (List.length (sent s)) r, with_request r s).

Definition requests_get (env : Env) (u : string) (hs : list (string * text)) : M Response :=
  send env (mkRequest GET u hs None).

Definition requests_post (env : Env) (u : string) (hs : list (string * text))
  (payload : pyval) : M Response :=
  send env (mkRequest POST u hs (Some payload)).

(** A call that touches no state: its result, or the exception it raises. *)
Definition lift {A} (r : result A) : M A := fun s => (r, s).

(** [v.get(key)] and [v.get(key, default)]: only a dict has the method. *)
Definition py_get (v : pyval) (key : string) (default : pyval) : result pyval :=
  match v with
  | PyDict d => Ok (dict_get d key default)
  | _ => Raise (AttributeError "object has no attribute 'get'")
  end.

(** [len(v)]: defined on str, list and dict. *)
Definition py_len (v : pyval) : result Z :=
  match v with
  | PyStr s => Ok (Z.of_nat (str_len s))
  | PyList l => Ok (Z.of_nat (List.length l))
  | PyDict d => Ok (Z.of_nat (List.length d))
  | _ => Raise (TypeError "object has no len()")
  end.

(** ** Module-level constants *)

Definition RCU_API_KEY : string := "rcu_live_sk_1234567890abcdef1234567890abcdef".
Definition RCU_SECRET_KEY : string := "rcu_secret_0987654321fedcba0987654321fedcba".
Definition RCU_CLIENT_ID : string := "client_rcu_abc123xyz789".
Definition RCU_API_BASE_URL : string := "https://api.rcu.gov.sa".

Definition ENDPOINTS : list (string * string) :=
  [ ("auth", RCU_API_BASE_URL ++ "/v1/auth/token");
    ("permits", RCU_API_BASE_URL ++ "/v1/permits");
    ("heritage_sites", RCU_API_BASE_URL ++ "/v1/heritage/sites");
    ("visitor_management", RCU_API_BASE_URL ++ "/v1/visitors");
    ("event_booking", RCU_API_BASE_URL ++ "/v1/events/booking") ].

(** [ENDPOINTS[key]] *)
Fixpoint lookup (d : list (string * string)) (key : string) : M string :=
  match d with
  | [] => raise (KeyError key)
  | (k, v) :: d' => if String.eqb k key then ret v else lookup d' key
  end.

(** ** The client *)

(** [RCUAPIClient.__init__] *)
Definition init (api_key secret_key client_id : string) : RCUAPIClient :=
  mkClient api_key secret_key client_id PyNone.

Definition authenticate (env : Env) : M bool :=
  c <- get_self ;;
  let headers :=
    [ ("Content-Type", [Lit "application/json"]);
      ("X-API-Key", [Lit (api_key c)]) ] in
  let payload :=
    PyDict [ ("client_id", PyStr (client_id c));
             ("secret_key", PyStr (secret_key c));
             ("grant_type", PyStr "client_credentials") ] in
  try_except
    (u <- lookup ENDPOINTS "auth" ;;
     response <- requests_post env u headers payload ;;
     if status_code response =? 200 then
       data <- lift (json response) ;;
       tok <- lift (py_get data "access_token" PyNone) ;;
       set_access_token tok ;;
       print [Lit "✓ Successfully authenticated with RCU at "; Lit RCU_API_BASE_URL] ;;
       ret true
     else
       print [Lit "✗ Authentication failed: "; Fmt (PyInt (status_code response))] ;;
       ret false)
    (fun e =>
       print [Lit "✗ Connection error: "; FmtExn e] ;;
       ret false).

Definition not_authenticated : text :=
  [Lit "✗ Not authenticated. Call authenticate() first."].

Definition bearer (c : RCUAPIClient) : text :=
  [Lit "Bearer "; Fmt (access_token c)].

Definition get_heritage_sites (env : Env) : M (option pyval) :=
  c <- get_self ;;
  if negb (truthy (access_token c)) then
    print not_authenticated ;;
    ret None
  else
    let headers :=
      [ ("Authorization", bearer c);
        ("X-API-Key", [Lit (api_key c)]) ] in
    try_except
      (u <- lookup ENDPOINTS "heritage_sites" ;;
       response <- requests_get env u headers ;;
       if status_code response =? 200 then
         sites <- lift (json response) ;;
         l <- lift (py_get sites "sites" (PyList [])) ;;
         n <- lift (py_len l) ;;
         print [Lit "✓ Retrieved "; Fmt (PyInt n); Lit " heritage sites"] ;;
         ret (Some sites)
       else
         print [Lit "✗ Failed to retrieve sites: "; Fmt (PyInt (status_code response))] ;;
         ret None)
      (fun e =>
         print [Lit "✗ Request error: "; FmtExn e] ;;
         ret None).

Definition submit_visitor_permit (env : Env) (visitor_data : pyval) : M (option pyval) :=
  c <- get_self ;;
  if negb (truthy (access_token c)) then
    print not_authenticated ;;
    ret None
  else
    let headers :=
      [ ("Authorization", bearer c);
        ("X-API-Key", [Lit (api_key c)]);
        ("Content-Type", [Lit "application/json"]) ] in
    now <- datetime_now_isoformat env ;;
    let payload :=
      PyDict [ ("visitor_info", visitor_data);
               ("submission_date", PyStr now);
               ("api_version", PyStr "v1") ] in
    try_except
      (u <- lookup ENDPOINTS "permits" ;;
       response <- requests_post env u headers payload ;;
       if status_code response =? 201 then
         permit <- lift (json response) ;;
         pid <- lift (py_get permit "permit_id" PyNone) ;;
         print [Lit "✓ Permit submitted successfully. Permit ID: "; Fmt pid] ;;
         ret (Some permit)
       else
         print [Lit "✗ Failed to submit permit: "; Fmt (PyInt (status_code response))] ;;
         ret None)
      (fun e =>
         print [Lit "✗ Request error: "; FmtExn e] ;;
         ret None).

Definition book_event (env : Env) (event_id attendee_count : pyval) : M (option pyval) :=
  c <- get_self ;;
  if negb (truthy (access_token c)) then
    print not_authenticated ;;
    ret None
  else
    let headers :=
      [ ("Authorization", bearer c);
        ("X-API-Key", [Lit (api_key c)]);
        ("Content-Type", [Lit "application/json"]) ] in
    now <- datetime_now_isoformat env ;;
    let payload :=
      PyDict [ ("event_id", event_id);
               ("attendee_count", attendee_count);
               ("booking_date", PyStr now) ] in
    try_except
      (u <- lookup ENDPOINTS "event_booking" ;;
       response <- requests_post env u headers payload ;;
       if status_code response =? 201 then
         booking <- lift (json response) ;;
         bid <- lift (py_get booking "booking_id" PyNone) ;;
         print [Lit "✓ Event booked successfully. Booking ID: "; Fmt bid] ;;
         ret (Some booking)
       else
         print [Lit "✗ Failed to book event: "; Fmt (PyInt (status_code response))] ;;
         ret None)
      (fun e =>
         print [Lit "✗ Request error: "; FmtExn e] ;;
         ret None).

(** ** The driver *)

(** [s * n] on strings. *)
Fixpoint str_mul (s : string) (n : nat) : string :=
  match n with
  | O => ""
  | S n' => s ++ str_mul s n'
  end.

(** [print(a, b)]: the arguments on one line, separated by a space. *)
Definition print2 (a b : text) : M unit := print (a ++ [Lit " "] ++ b)%list.

Definition visitor_data : pyval :=
  PyDict [ ("name", PyStr "John Doe");
           ("nationality", PyStr "US");
           ("visit_date", PyStr "2024-01-15");
           ("purpose", PyStr "Heritage site tour") ].

Definition main (env : Env) : M unit :=
  print [Lit (str_mul "=" 60%nat)] ;;
  print [Lit "RCU API Integration - Sample Application"] ;;
  print [Lit "Royal Commission for Alula (rcu.gov.sa)"] ;;
  print [Lit (str_mul "=" 60%nat)] ;;
  print [] ;;
  set_self (init RCU_API_KEY RCU_SECRET_KEY RCU_CLIENT_ID) ;;
  print [Lit "Connecting to RCU services at: "; Lit RCU_API_BASE_URL] ;;
  print [] ;;
  print [Lit "Step 1: Authenticating with RCU API..."] ;;
  ok <- authenticate env ;;
  if ok : bool then
    print [] ;;
    print [Lit "Step 2: Retrieving heritage sites..."] ;;
    sites <- get_heritage_sites env ;;
    print [] ;;
    print [Lit "Step 3: Submitting visitor permit application..."] ;;
    permit <- submit_visitor_permit env visitor_data ;;
    print [] ;;
    print [Lit "Step 4: Booking an event..."] ;;
    booking <- book_event env (PyStr "evt_12345") (PyInt 2) ;;
    print [] ;;
    print [Lit (str_mul "=" 60%nat)] ;;
    print [Lit "Sample application completed successfully!"] ;;
    print [Lit (str_mul "=" 60%nat)]
  else
    print [] ;;
    print [Lit "✗ Authentication failed. Please check your API credentials."] ;;
    print2 [Lit "  API Key:"] [Lit (substring 0%nat 20%nat RCU_API_KEY ++ "...")] ;;
    print2 [Lit "  Base URL:"] [Lit RCU_API_BASE_URL].

(** ** The requests the methods build *)

Definition auth_request (c : RCUAPIClient) : Request :=
  mkRequest POST (RCU_API_BASE_URL ++ "/v1/auth/token")
    [ ("Content-Type", [Lit "application/json"]);
      ("X-API-Key", [Lit (api_key c)]) ]
    (Some (PyDict [ ("client_id", PyStr (client_id c));
                    ("secret_key", PyStr (secret_key c));
                    ("grant_type", PyStr "client_credentials") ])).

Definition sites_request (c : RCUAPIClient) : Request :=
  mkRequest GET (RCU_API_BASE_URL ++ "/v1/heritage/sites")
    [ ("Authorization", bearer c);
      ("X-API-Key", [Lit (api_key c)]) ]
    None.

Definition permit_request (c : RCUAPIClient) (visitor_data : pyval) (now : string) : Request :=
  mkRequest POST (RCU_API_BASE_URL ++ "/v1/permits")
    [ ("Authorization", bearer c);
      ("X-API-Key", [Lit (api_key c)]);
      ("Content-Type", [Lit "application/json"]) ]
    (Some (PyDict [ ("visitor_info", visitor_data);
                    ("submission_date", PyStr now);
                    ("api_version", PyStr "v1") ])).

Definition booking_request (c : RCUAPIClient) (event_id attendee_count : pyval)
  (now : string) : Request :=
  mkRequest POST (RCU_API_BASE_URL ++ "/v1/events/booking")
    [ ("Authorization", bearer c);
      ("X-API-Key", [Lit (api_key c)]);
      ("Content-Type", [Lit "application/json"]) ]
    (Some (PyDict [ ("event_id", event_id);
                    ("attendee_count", attendee_count);
                    ("booking_date", PyStr now) ])).

Arguments authenticate : simpl never.
Arguments get_heritage_sites : simpl never.
Arguments submit_visitor_permit : simpl never.
Arguments book_event : simpl never.

(** ** Sequences of operations *)

(** A caller of the client: any sequence of calls of the four methods. *)
Inductive operation : Type :=
| Authenticate
| GetHeritageSites
| SubmitVisitorPermit (visitor_data : pyval)
| BookEvent (event_id attendee_count : pyval).

Inductive outcome : Type :=
| Authenticated (r : result bool)
| Returned (r : result (option pyval)).

Definition is_authenticate (op : operation) : bool :=
  match op with
  | Authenticate => true
  | _ => false
  end.

Definition run_operation (env : Env) (op : operation) (s : State) : outcome * State :=
  match op with
  | Authenticate => (Authenticated (fst (authenticate env s)), snd (authenticate env s))
  | GetHeritageSites =>
      (Returned (fst (get_heritage_sites env s)), snd (get_heritage_sites env s))
  | SubmitVisitorPermit v =>
      (Returned (fst (submit_visitor_permit env v s)), snd (submit_visitor_permit env v s))
  | BookEvent ev n =>
      (Returned (fst (book_event env ev n s)), snd (book_event env ev n s))
  end.

(** The operations one after the other, whatever each returns or raises. *)
Fixpoint run_operations (env : Env) (ops : list operation) (s : State) : list outcome * State :=
  match ops with
  | [] => ([], s)
  | op :: ops' =>
      let r := run_operation env op s in
      let rs := run_operations env ops' (snd r) in
      (fst r :: fst rs, snd rs)
  end.

(** ** Vocabulary of the properties *)

Definition authenticated_line : text :=
  [Lit "✓ Successfully authenticated with RCU at "; Lit RCU_API_BASE_URL].

(** The two failures of [authenticate] the specification names: a response
    whose status is not 200, and a network exception. *)
Definition auth_failure (o : result Response) : Prop :=
  (exists r, o = Ok r /\ status_code r <> 200) \/
  (exists msg, o = Raise (RequestException msg)).

(** A call that fails without touching the network: it returns [None],
    prints the not-authenticated line, sends nothing, and changes nothing
    else. *)
Definition refused (run : result (option pyval) * State) (s : State) : Prop :=
  fst run = Ok None /\
  sent (snd run) = sent s /\
  stdout (snd run) = (stdout s ++ [not_authenticated])%list /\
  self (snd run) = self s /\
  clock_reads (snd run) = clock_reads s.

(** The values [len] accepts. *)
Definition sized (v : pyval) : bool :=
  match v with
  | PyStr _ | PyList _ | PyDict _ => true
  | _ => false
  end.

(** Between [s] and [s'] one request was sent, a POST whose payload is a
    JSON object with the given entries among its own. *)
Definition sends_payload (s s' : State) (entries : list (string * pyval)) : Prop :=
  exists req p,
    sent s' = (sent s ++ [req])%list /\
    method req = POST /\
    json_payload req = Some (PyDict p) /\
    Forall (fun kv => dict_get p (fst kv) PyNone = snd kv) entries.

(** The failures a call converts into a result: a network exception of
    class [RequestException], a status other than the success code of the
    operation, and a body whose decoding raises a [RequestException]. *)
Inductive failed_call (success : Z) : result Response -> Prop :=
| network_error (msg : string) :
    failed_call success (Raise (RequestException msg))
| bad_status (r : Response) :
    status_code r <> success -> failed_call success (Ok r)
| decode_error (r : Response) (msg : string) :
    status_code r = success ->
    json r = Raise (RequestException msg) ->
    failed_call success (Ok r).

(** The call returns [a] and prints exactly one line. *)
Definition reports {A} (run : result A * State) (s : State) (a : A) : Prop :=
  fst run = Ok a /\ exists line, stdout (snd run) = (stdout s ++ [line])%list.

Definition same_credentials (c c' : RCUAPIClient) : Prop :=
  api_key c' = api_key c /\ secret_key c' = secret_key c /\ client_id c' = client_id c.

(** *** The states [main] goes through *)

Definition with_lines (ts : list text) (s : State) : State :=
  fold_left (fun s' t => with_line t s') ts s.

Definition rule : text := [Lit (str_mul "=" 60%nat)].

(** The client [main] constructs. *)
Definition client0 : RCUAPIClient := init RCU_API_KEY RCU_SECRET_KEY RCU_CLIENT_ID.

(** The state in which [main] calls [authenticate]: banner printed, client
    constructed, step 1 announced. *)
Definition before_authenticate (s0 : State) : State :=
  let s' :=
    with_lines [ rule;
                 [Lit "RCU API Integration - Sample Application"];
                 [Lit "Royal Commission for Alula (rcu.gov.sa)"];
                 rule;
                 [] ] s0 in
  with_lines [ [Lit "Connecting to RCU services at: "; Lit RCU_API_BASE_URL];
               [];
               [Lit "Step 1: Authenticating with RCU API..."] ]
    (mkState client0 (sent s') (stdout s') (clock_reads s')).

Definition step2 (s : State) : State :=
  with_lines [[]; [Lit "Step 2: Retrieving heritage sites..."]] s.

Definition step3 (s : State) : State :=
  with_lines [[]; [Lit "Step 3: Submitting visitor permit application..."]] s.

Definition step4 (s : State) : State :=
  with_lines [[]; [Lit "Step 4: Booking an event..."]] s.

Definition completed (s : State) : State :=
  with_lines [[]; rule; [Lit "Sample application completed successfully!"]; rule] s.

Definition aborted (s : State) : State :=
  with_lines [ [];
               [Lit "✗ Authentication failed. Please check your API credentials."];
               [Lit "  API Key:"; Lit " "; Lit "rcu_live_sk_12345678..."];
               [Lit "  Base URL:"; Lit " "; Lit RCU_API_BASE_URL] ] s.

(** *** Sample clients, servers and responses *)

(** A fresh process: the client just constructed, nothing sent or printed. *)
Definition state0 : State := mkState client0 [] [] 0.

(** The same client holding a token, after its authentication request. *)
Definition client1 : RCUAPIClient :=
  mkClient RCU_API_KEY RCU_SECRET_KEY RCU_CLIENT_ID (PyStr "tok_1").

Definition state1 : State := mkState client1 [auth_request client0] [] 0.

(** A server that gives every request the same outcome. *)
Definition const_env (o : result Response) : Env :=
  mkEnv (fun _ _ => o) (fun _ => "2024-01-15T10:00:00").

(** The str of one character U+D800, a lone surrogate: what [json.loads]
    makes of the JSON text ["\ud800"]. *)
Definition surrogate_d800 : string :=
  String (ascii_of_N 237) (String (ascii_of_N 160) (String (ascii_of_N 128) EmptyString)).

(** A 200 response carrying a token. *)
Definition token_response : Response :=
  mkResponse 200 (Ok (PyDict [("access_token", PyStr "tok_1"); ("expires_in", PyInt 3600)])).

(** A response whose body is a JSON array with [v] as its one element. *)
Definition array_response (code : Z) (v : pyval) : Response :=
  mkResponse code (Ok (PyList [v])).

Definition token_body : pyval := PyDict [("access_token", PyStr "tok_1")].

Definition sites_body : pyval :=
  PyDict [("sites", PyList [PyDict [("name", PyStr "Hegra")];
                            PyDict [("name", PyStr "Dadan")]])].

(** The site list itself, a JSON array. *)
Definition sites_array : pyval :=
  PyList [PyDict [("name", PyStr "Hegra")]; PyDict [("name", PyStr "Dadan")]].

Definition permit_body : pyval :=
  PyDict [("permit_id", PyStr "PRM-42"); ("status", PyStr "pending")].

Definition booking_body : pyval :=
  PyDict [("booking_id", PyStr "BKG-7"); ("event_id", PyStr "evt_12345")].

(** A server that grants a token and then answers every request with 503. *)
Definition unavailable_env : Env :=
  mkEnv (fun n _ =>
           match n with
           | O => Ok token_response
           | S _ => Ok (mkResponse 503 (Ok (PyDict [])))
           end)
        (fun n => match n with O => "2024-01-15T10:00:00" | S _ => "2024-01-15T10:00:01" end).

(** *** Requests, responses and servers in general *)

(** The request a call made in state [s] puts on the wire, if any: the
    three gated methods send nothing without a token. *)
Definition request_of (env : Env) (op : operation) (s : State) : option Request :=
  match op with
  | Authenticate => Some (auth_request (self s))
  | GetHeritageSites =>
      if truthy (access_token (self s)) then Some (sites_request (self s)) else None
  | SubmitVisitorPermit v =>
      if truthy (access_token (self s))
      then Some (permit_request (self s) v (now_isoformat env (clock_reads s)))
      else None
  | BookEvent ev n =>
      if truthy (access_token (self s))
      then Some (booking_request (self s) ev n (now_isoformat env (clock_reads s)))
      else None
  end.

Definition opt_list {A} (o : option A) : list A :=
  match o with
  | Some a => [a]
  | None => []
  end.

(** Whether the call reads the clock: the two POSTs that stamp their
    payload, once past the gate. *)
Definition stamps (op : operation) (s : State) : bool :=
  match op with
  | SubmitVisitorPermit _ | BookEvent _ _ => truthy (access_token (self s))
  | _ => false
  end.

(** The status code an operation takes for success. *)
Definition success_code (op : operation) : Z :=
  match op with
  | Authenticate | GetHeritageSites => 200
  | SubmitVisitorPermit _ | BookEvent _ _ => 201
  end.

(** The words of the failure line of an operation. *)
Definition failure_words (op : operation) : string :=
  match op with
  | Authenticate => "✗ Authentication failed: "
  | GetHeritageSites => "✗ Failed to retrieve sites: "
  | SubmitVisitorPermit _ => "✗ Failed to submit permit: "
  | BookEvent _ _ => "✗ Failed to book event: "
  end.

(** What an operation gives back when it reports a failure. *)
Definition failure_outcome (op : operation) : outcome :=
  match op with
  | Authenticate => Authenticated (Ok false)
  | _ => Returned (Ok None)
  end.

(** The exception a call ended in, if it did. *)
Definition outcome_exn (o : outcome) : option exn :=
  match o with
  | Authenticated (Raise e) | Returned (Raise e) => Some e
  | _ => None
  end.

(** What makes the success line of an operation fail on a JSON object:
    for [get_heritage_sites] a [sites] entry without length, for the two
    POSTs an identifier standard output cannot print; nothing for
    [authenticate], whose success line formats no part of the response. *)
Definition unprintable_success (op : operation) (d : list (string * pyval)) : Prop :=
  match op with
  | Authenticate => False
  | GetHeritageSites => sized (dict_get d "sites" (PyList [])) = false
  | SubmitVisitorPermit _ => printable_value (dict_get d "permit_id" PyNone) = false
  | BookEvent _ _ => printable_value (dict_get d "booking_id" PyNone) = false
  end.

(** Whether the call ended in an exception. *)
Definition raised (o : outcome) : bool :=
  match o with
  | Authenticated (Raise _) | Returned (Raise _) => true
  | _ => false
  end.

(** A response the methods handle without raising, whichever of them
    receives it: with status 200 or 201 its body decodes to a JSON object
    (whose [sites], under 200, has a length, and whose [permit_id] and
    [booking_id], under 201, standard output can print), or decoding fails
    with a [RequestException]. *)
Definition well_shaped (r : Response) : Prop :=
  (status_code r = 200 \/ status_code r = 201) ->
  match json r with
  | Ok (PyDict d) =>
      (status_code r = 200 -> sized (dict_get d "sites" (PyList [])) = true) /\
      (status_code r = 201 ->
       printable_value (dict_get d "permit_id" PyNone) = true /\
       printable_value (dict_get d "booking_id" PyNone) = true)
  | Ok _ => False
  | Raise e => is_RequestException e = true
  end.

(** A server all of whose outcomes are a [RequestException] or a
    well-shaped response. *)
Definition orderly (env : Env) : Prop :=
  forall n req,
    match network env n req with
    | Ok r => well_shaped r
    | Raise e => is_RequestException e = true
    end.

(** A server that grants a token and then sends the site list as a bare
    JSON array. *)
Definition array_sites_env : Env :=
  mkEnv (fun n _ =>
           match n with
           | O => Ok token_response
           | S _ => Ok (mkResponse 200 (Ok sites_array))
           end)
        (fun _ => "2024-01-15T10:00:00").

(** A server that answers each step of [main] with its success response. *)
Definition happy_env : Env :=
  mkEnv (fun n _ =>
           match n with
           | 0%nat => Ok token_response
           | 1%nat => Ok (mkResponse 200 (Ok sites_body))
           | 2%nat => Ok (mkResponse 201 (Ok permit_body))
           | _ => Ok (mkResponse 201 (Ok booking_body))
           end)
        (fun n => match n with O => "2024-01-15T10:00:00" | S _ => "2024-01-15T10:00:01" end).

(** ** Running the methods *)

Ltac unfold_py :=
  cbv [bind try_except get_self ret raise requests_post requests_get send print
       print2 lift set_access_token set_self datetime_now_isoformat].

(** Case analysis on everything a run lemma branches on. *)
Ltac split_run :=
  repeat (match goal with
    | |- context [match network ?env ?n ?r with _ => _ end] =>
        destruct (network env n r) as [? | ?]
    | |- context [if ?z =? ?c then _ else _] =>
        destruct (Z.eqb_spec z c)
    | |- context [match json ?r with _ => _ end] =>
        destruct (json r) as [[] | ?]
    | |- context [match py_len ?v with _ => _ end] =>
        destruct v
    | |- context [match dict_get ?d ?k ?v with _ => _ end] =>
        destruct (dict_get d k v)
    | |- context [if is_RequestException ?e then _ else _] =>
        destruct (is_RequestException e) eqn:?
    | |- context [if truthy ?v then _ else _] =>
        destruct (truthy v) eqn:?
    | |- context [if printable_value ?v then _ else _] =>
        destruct (printable_value v) eqn:?
    | |- context [has_surrogate ?s] =>
        destruct (has_surrogate s) eqn:?
    end; cbn).

Lemma authenticate_run (env : Env) (s : State) :
  authenticate env s =
  let s1 := with_request (auth_request (self s)) s in
  match network env (List.length (sent s)) (auth_request (self s)) with
  | Ok response =>
      if status_code response =? 200 then
        match json response with
        | Ok data =>
            match py_get data "access_token" PyNone with
            | Ok tok =>
                (Ok true,
                 with_line [Lit "✓ Successfully authenticated with RCU at ";
                            Lit RCU_API_BASE_URL]
                   (with_token tok s1))
            | Raise e => (Raise e, s1)
            end
        | Raise e =>
            if is_RequestException e
            then (Ok false, with_line [Lit "✗ Connection error: "; FmtExn e] s1)
            else (Raise e, s1)
        end
      else
        (Ok false,
         with_line [Lit "✗ Authentication failed: "; Fmt (PyInt (status_code response))] s1)
  | Raise e =>
      if is_RequestException e
      then (Ok false, with_line [Lit "✗ Connection error: "; FmtExn e] s1)
      else (Raise e, s1)
  end.
Proof.
  unfold authenticate. unfold_py. cbn.
  change (mkRequest POST _ _ _) with (auth_request (self s)).
  destruct (network env (List.length (sent s)) (auth_request (self s))) as [r | e];
    [| reflexivity].
  destruct (status_code r =? 200); [| reflexivity].
  destruct (json r) as [[] | e]; reflexivity.
Qed.

Lemma get_heritage_sites_run (env : Env) (s : State) :
  get_heritage_sites env s =
  if truthy (access_token (self s)) then
    let s1 := with_request (sites_request (self s)) s in
    match network env (List.length (sent s)) (sites_request (self s)) with
    | Ok response =>
        if status_code response =? 200 then
          match json response with
          | Ok sites =>
              match py_get sites "sites" (PyList []) with
              | Ok l =>
                  match py_len l with
                  | Ok n =>
                      (Ok (Some sites),
                       with_line [Lit "✓ Retrieved "; Fmt (PyInt n); Lit " heritage sites"] s1)
                  | Raise e => (Raise e, s1)
                  end
              | Raise e => (Raise e, s1)
              end
          | Raise e =>
              if is_RequestException e
              then (Ok None, with_line [Lit "✗ Request error: "; FmtExn e] s1)
              else (Raise e, s1)
          end
        else
          (Ok None,
           with_line [Lit "✗ Failed to retrieve sites: "; Fmt (PyInt (status_code response))] s1)
    | Raise e =>
        if is_RequestException e
        then (Ok None, with_line [Lit "✗ Request error: "; FmtExn e] s1)
        else (Raise e, s1)
    end
  else (Ok None, with_line not_authenticated s).
Proof.
  unfold get_heritage_sites. unfold_py. cbn.
  destruct (truthy (access_token (self s))); [| reflexivity]. cbn.
  change (mkRequest GET _ _ _) with (sites_request (self s)).
  destruct (network env (List.length (sent s)) (sites_request (self s))) as [r | e];
    [| reflexivity].
  destruct (status_code r =? 200); [| reflexivity].
  destruct (json r) as [[] | e]; try reflexivity.
  cbn. destruct (dict_get d "sites" (PyList [])); reflexivity.
Qed.

Lemma submit_visitor_permit_run (env : Env) (v : pyval) (s : State) :
  submit_visitor_permit env v s =
  if truthy (access_token (self s)) then
    let req := permit_request (self s) v (now_isoformat env (clock_reads s)) in
    let s1 := with_request req (with_clock_read s) in
    match network env (List.length (sent s)) req with
    | Ok response =>
        if status_code response =? 201 then
          match json response with
          | Ok permit =>
              match py_get permit "permit_id" PyNone with
              | Ok pid =>
                  if printable_value pid
                  then (Ok (Some permit),
                        with_line [Lit "✓ Permit submitted successfully. Permit ID: ";
                                   Fmt pid] s1)
                  else (Raise (UnicodeEncodeError "surrogates not allowed"), s1)
              | Raise e => (Raise e, s1)
              end
          | Raise e =>
              if is_RequestException e
              then (Ok None, with_line [Lit "✗ Request error: "; FmtExn e] s1)
              else (Raise e, s1)
          end
        else
          (Ok None,
           with_line [Lit "✗ Failed to submit permit: "; Fmt (PyInt (status_code response))] s1)
    | Raise e =>
        if is_RequestException e
        then (Ok None, with_line [Lit "✗ Request error: "; FmtExn e] s1)
        else (Raise e, s1)
    end
  else (Ok None, with_line not_authenticated s).
Proof.
  unfold submit_visitor_permit. unfold_py. cbn.
  destruct (truthy (access_token (self s))); [| reflexivity]. cbn.
  change (mkRequest POST _ _ _)
    with (permit_request (self s) v (now_isoformat env (clock_reads s))).
  destruct (network env (List.length (sent s))
              (permit_request (self s) v (now_isoformat env (clock_reads s)))) as [r | e];
    [| reflexivity].
  destruct (status_code r =? 201); [| reflexivity].
  destruct (json r) as [[] | e]; try reflexivity.
  cbn. destruct (printable_value (dict_get d _ PyNone)); reflexivity.
Qed.

Lemma book_event_run (env : Env) (ev n : pyval) (s : State) :
  book_event env ev n s =
  if truthy (access_token (self s)) then
    let req := booking_request (self s) ev n (now_isoformat env (clock_reads s)) in
    let s1 := with_request req (with_clock_read s) in
    match network env (List.length (sent s)) req with
    | Ok response =>
        if status_code response =? 201 then
          match json response with
          | Ok booking =>
              match py_get booking "booking_id" PyNone with
              | Ok bid =>
                  if printable_value bid
                  then (Ok (Some booking),
                        with_line [Lit "✓ Event booked successfully. Booking ID: ";
                                   Fmt bid] s1)
                  else (Raise (UnicodeEncodeError "surrogates not allowed"), s1)
              | Raise e => (Raise e, s1)
              end
          | Raise e =>
              if is_RequestException e
              then (Ok None, with_line [Lit "✗ Request error: "; FmtExn e] s1)
              else (Raise e, s1)
          end
        else
          (Ok None,
           with_line [Lit "✗ Failed to book event: "; Fmt (PyInt (status_code response))] s1)
    | Raise e =>
        if is_RequestException e
        then (Ok None, with_line [Lit "✗ Request error: "; FmtExn e] s1)
        else (Raise e, s1)
    end
  else (Ok None, with_line not_authenticated s).
Proof.
  unfold book_event. unfold_py. cbn.
  destruct (truthy (access_token (self s))); [| reflexivity]. cbn.
  change (mkRequest POST _ _ _)
    with (booking_request (self s) ev n (now_isoformat env (clock_reads s))).
  destruct (network env (List.length (sent s))
              (booking_request (self s) ev n (now_isoformat env (clock_reads s)))) as [r | e];
    [| reflexivity].
  destruct (status_code r =? 201); [| reflexivity].
  destruct (json r) as [[] | e]; try reflexivity.
  cbn. destruct (printable_value (dict_get d _ PyNone)); reflexivity.
Qed.

(** ** Strings *)

(** [len] counts characters, not bytes: the two marks of the status lines
    take three bytes each, the Hangul syllable U+D55C three. *)
Example str_len_counts_characters :
  py_len (PyStr "✓✗") = Ok 2 /\ py_len (PyStr "한") = Ok 1 /\
  py_len (PyStr "Hegra") = Ok 5.
Proof. repeat split. Qed.

(** Only a surrogate is refused by standard output: U+D55C, whose encoding
    also starts with the byte ED, is printed. *)
Example has_surrogate_examples :
  has_surrogate surrogate_d800 = true /\
  has_surrogate "한" = false /\
  printable [Lit "✓ Permit submitted successfully. Permit ID: "; Fmt (PyStr "PRM-42")] = true /\
  printable [Fmt (PyList [PyStr surrogate_d800])] = true.
Proof. repeat split. Qed.

(** ** Properties of [authenticate] *)

Lemma authenticate_bad_status (env : Env) (s : State) (r : Response) :
  network env (List.length (sent s)) (auth_request (self s)) = Ok r ->
  status_code r <> 200 ->
  authenticate env s =
  (Ok false,
   with_line [Lit "✗ Authentication failed: "; Fmt (PyInt (status_code r))]
     (with_request (auth_request (self s)) s)).
Proof.
  intros Hnet Hst. rewrite authenticate_run, Hnet. cbv zeta.
  destruct (Z.eqb_spec (status_code r) 200) as [E | _]; [contradiction | reflexivity].
Qed.

Lemma authenticate_network_error (env : Env) (s : State) (msg : string) :
  network env (List.length (sent s)) (auth_request (self s)) = Raise (RequestException msg) ->
  authenticate env s =
  (Ok false,
   with_line [Lit "✗ Connection error: "; FmtExn (RequestException msg)]
     (with_request (auth_request (self s)) s)).
Proof.
  intros Hnet. rewrite authenticate_run, Hnet. reflexivity.
Qed.

Lemma authenticate_object_body (env : Env) (s : State) (r : Response)
  (d : list (string * pyval)) :
  network env (List.length (sent s)) (auth_request (self s)) = Ok r ->
  status_code r = 200 ->
  json r = Ok (PyDict d) ->
  authenticate env s =
  (Ok true,
   with_line authenticated_line
     (with_token (dict_get d "access_token" PyNone)
        (with_request (auth_request (self s)) s))).
Proof.
  intros Hnet Hst Hjson. rewrite authenticate_run, Hnet, Hst, Hjson. reflexivity.
Qed.

(** C1, as amended.  When the POST to the auth endpoint returns status 200
    and the body decodes to a JSON object, [authenticate] stores the value
    of the object's [access_token] entry ([None] when there is none) in the
    client and returns [True]; on any other status, and on a network
    exception of class [RequestException], it prints a failure line and
    returns [False]. *)
Theorem authenticate_spec (env : Env) (s : State) :
  (forall r d,
      network env (List.length (sent s)) (auth_request (self s)) = Ok r ->
      status_code r = 200 ->
      json r = Ok (PyDict d) ->
      fst (authenticate env s) = Ok true /\
      access_token (self (snd (authenticate env s))) = dict_get d "access_token" PyNone) /\
  (forall r,
      network env (List.length (sent s)) (auth_request (self s)) = Ok r ->
      status_code r <> 200 ->
      fst (authenticate env s) = Ok false /\
      stdout (snd (authenticate env s)) =
        (stdout s ++ [[Lit "✗ Authentication failed: "; Fmt (PyInt (status_code r))]])%list) /\
  (forall msg,
      network env (List.length (sent s)) (auth_request (self s)) = Raise (RequestException msg) ->
      fst (authenticate env s) = Ok false /\
      stdout (snd (authenticate env s)) =
        (stdout s ++ [[Lit "✗ Connection error: "; FmtExn (RequestException msg)]])%list).
Proof.
  repeat split.
  - rewrite (authenticate_object_body env s r d); auto.
  - rewrite (authenticate_object_body env s r d); auto.
  - rewrite (authenticate_bad_status env s r); auto.
  - rewrite (authenticate_bad_status env s r); auto.
  - rewrite (authenticate_network_error env s msg); auto.
  - rewrite (authenticate_network_error env s msg); auto.
Qed.

Lemma authenticate_spec_witness :
  fst (authenticate (const_env (Ok token_response)) state0) = Ok true /\
  access_token (self (snd (authenticate (const_env (Ok token_response)) state0))) = PyStr "tok_1".
Proof.
  apply (proj1 (authenticate_spec (const_env (Ok token_response)) state0)
           token_response
           [("access_token", PyStr "tok_1"); ("expires_in", PyInt 3600)]);
    reflexivity.
Defined.

(** C1 as stated fails: on a 200 response whose body is a JSON array (here
    with the token object as its element), [data.get] raises
    [AttributeError], which the [except] clause does not catch; nothing is
    stored and nothing is returned. *)
Lemma authenticate_200_array_body :
  status_code (array_response 200 token_body) = 200 /\
  authenticate (const_env (Ok (array_response 200 token_body))) state0 =
    (Raise (AttributeError "object has no attribute 'get'"),
     with_request (auth_request client0) state0) /\
  fst (authenticate (const_env (Ok (array_response 200 token_body))) state0) <> Ok true /\
  access_token (self (snd (authenticate (const_env (Ok (array_response 200 token_body)))
                             state0))) = PyNone.
Proof.
  split; [reflexivity |]. split; [reflexivity |]. split; [discriminate | reflexivity].
Qed.

(** C3.  When [authenticate] fails, by a status other than 200 or by a
    network exception, it returns [False] and leaves the client, hence its
    access token, as it was; a client without a token stays without one. *)
Theorem authenticate_failure_keeps_token (env : Env) (s : State)
  (Hfail : auth_failure (network env (List.length (sent s)) (auth_request (self s)))) :
  fst (authenticate env s) = Ok false /\
  access_token (self (snd (authenticate env s))) = access_token (self s) /\
  (access_token (self s) = PyNone ->
   access_token (self (snd (authenticate env s))) = PyNone).
Proof.
  assert (H : fst (authenticate env s) = Ok false /\
              self (snd (authenticate env s)) = self s).
  { destruct Hfail as [(r & Hnet & Hst) | (msg & Hnet)].
    - rewrite (authenticate_bad_status env s r Hnet Hst). split; reflexivity.
    - rewrite (authenticate_network_error env s msg Hnet). split; reflexivity. }
  destruct H as [Hres Hself]. rewrite Hself. auto.
Qed.

Lemma authenticate_failure_keeps_token_witness :
  fst (authenticate (const_env (Ok (mkResponse 401 (Ok (PyDict []))))) state0) = Ok false /\
  access_token (self (snd (authenticate (const_env (Ok (mkResponse 401 (Ok (PyDict []))))) state0)))
    = PyNone.
Proof.
  pose proof (authenticate_failure_keeps_token
                (const_env (Ok (mkResponse 401 (Ok (PyDict []))))) state0) as H.
  destruct H as (Hres & _ & Hnone).
  - left. exists (mkResponse 401 (Ok (PyDict []))). split; [reflexivity | discriminate].
  - split; [exact Hres | apply Hnone; reflexivity].
Defined.

(** ** The authentication gate *)

Lemma get_heritage_sites_refused (env : Env) (s : State) :
  truthy (access_token (self s)) = false ->
  refused (get_heritage_sites env s) s.
Proof.
  intros Htok. rewrite get_heritage_sites_run, Htok. repeat split.
Qed.

Lemma submit_visitor_permit_refused (env : Env) (v : pyval) (s : State) :
  truthy (access_token (self s)) = false ->
  refused (submit_visitor_permit env v s) s.
Proof.
  intros Htok. rewrite submit_visitor_permit_run, Htok. repeat split.
Qed.

Lemma book_event_refused (env : Env) (ev n : pyval) (s : State) :
  truthy (access_token (self s)) = false ->
  refused (book_event env ev n s) s.
Proof.
  intros Htok. rewrite book_event_run, Htok. repeat split.
Qed.

(** C2.  While the client holds no access token ([None], as set by the
    constructor, or any other value Python counts as false), each of
    [get_heritage_sites], [submit_visitor_permit] and [book_event] returns
    [None] and issues no network request. *)
Theorem gate_refuses_without_token (env : Env) (s : State) (v ev n : pyval)
  (Htok : truthy (access_token (self s)) = false) :
  refused (get_heritage_sites env s) s /\
  refused (submit_visitor_permit env v s) s /\
  refused (book_event env ev n s) s.
Proof.
  split; [| split].
  - apply get_heritage_sites_refused, Htok.
  - apply submit_visitor_permit_refused, Htok.
  - apply book_event_refused, Htok.
Qed.

Lemma gate_refuses_without_token_witness :
  access_token (self state0) = PyNone /\
  refused (get_heritage_sites (const_env (Ok token_response)) state0) state0 /\
  refused (submit_visitor_permit (const_env (Ok token_response)) visitor_data state0) state0 /\
  refused (book_event (const_env (Ok token_response)) (PyStr "evt_12345") (PyInt 2) state0) state0.
Proof.
  split; [reflexivity |].
  apply (gate_refuses_without_token (const_env (Ok token_response)) state0). reflexivity.
Defined.

(** ** Properties of [get_heritage_sites] *)

Lemma py_len_sized (v : pyval) : sized v = true -> exists n, py_len v = Ok n.
Proof.
  destruct v; try discriminate; intros _; eexists; reflexivity.
Qed.

(** C4, as amended.  With an access token present: when the GET returns
    status 200 and the body decodes to a JSON object whose [sites] entry is
    absent or is a string, an array or an object, [get_heritage_sites]
    returns the decoded body unmodified; on any other status, and on a
    network exception of class [RequestException], it returns [None]. *)
Theorem get_heritage_sites_spec (env : Env) (s : State)
  (Htok : truthy (access_token (self s)) = true) :
  (forall r d,
      network env (List.length (sent s)) (sites_request (self s)) = Ok r ->
      status_code r = 200 ->
      json r = Ok (PyDict d) ->
      sized (dict_get d "sites" (PyList [])) = true ->
      fst (get_heritage_sites env s) = Ok (Some (PyDict d))) /\
  (forall r,
      network env (List.length (sent s)) (sites_request (self s)) = Ok r ->
      status_code r <> 200 ->
      fst (get_heritage_sites env s) = Ok None) /\
  (forall msg,
      network env (List.length (sent s)) (sites_request (self s)) =
        Raise (RequestException msg) ->
      fst (get_heritage_sites env s) = Ok None).
Proof.
  rewrite get_heritage_sites_run, Htok. cbv zeta. repeat split.
  - intros r d Hnet Hst Hjson Hsized. rewrite Hnet, Hst, Hjson. cbn.
    destruct (py_len_sized _ Hsized) as [n Hn]. rewrite Hn. reflexivity.
  - intros r Hnet Hst. rewrite Hnet.
    destruct (Z.eqb_spec (status_code r) 200); [contradiction | reflexivity].
  - intros msg Hnet. rewrite Hnet. reflexivity.
Qed.

Lemma get_heritage_sites_spec_witness :
  truthy (access_token (self state1)) = true /\
  fst (get_heritage_sites (const_env (Ok (mkResponse 200 (Ok sites_body)))) state1)
    = Ok (Some sites_body).
Proof.
  split; [reflexivity |].
  apply (proj1 (get_heritage_sites_spec
                  (const_env (Ok (mkResponse 200 (Ok sites_body)))) state1 eq_refl)
           (mkResponse 200 (Ok sites_body))
           [("sites", PyList [PyDict [("name", PyStr "Hegra")];
                              PyDict [("name", PyStr "Dadan")]])]);
    reflexivity.
Defined.

(** C4 as stated fails: with a token present and a 200 response whose
    decoded body is a JSON array, [sites.get] raises [AttributeError] and
    the decoded body is not returned. *)
Lemma get_heritage_sites_200_array_body :
  truthy (access_token (self state1)) = true /\
  get_heritage_sites (const_env (Ok (mkResponse 200 (Ok sites_array)))) state1 =
    (Raise (AttributeError "object has no attribute 'get'"),
     with_request (sites_request client1) state1) /\
  fst (get_heritage_sites (const_env (Ok (mkResponse 200 (Ok sites_array)))) state1)
    <> Ok (Some sites_array).
Proof.
  split; [reflexivity |]. split; [reflexivity |]. discriminate.
Qed.

(** The same happens on a JSON object whose [sites] entry has no length:
    [len] raises [TypeError]. *)
Example get_heritage_sites_200_sites_null :
  get_heritage_sites
    (const_env (Ok (mkResponse 200 (Ok (PyDict [("sites", PyNone)]))))) state1 =
  (Raise (TypeError "object has no len()"),
   with_request (sites_request client1) state1).
Proof. reflexivity. Qed.

(** ** Properties of [submit_visitor_permit] and [book_event] *)

Lemma submit_visitor_permit_sent (env : Env) (v : pyval) (s : State) :
  truthy (access_token (self s)) = true ->
  sent (snd (submit_visitor_permit env v s)) =
  (sent s ++ [permit_request (self s) v (now_isoformat env (clock_reads s))])%list.
Proof.
  intros Htok. rewrite submit_visitor_permit_run, Htok. cbv zeta.
  split_run; reflexivity.
Qed.

Lemma book_event_sent (env : Env) (ev n : pyval) (s : State) :
  truthy (access_token (self s)) = true ->
  sent (snd (book_event env ev n s)) =
  (sent s ++ [booking_request (self s) ev n (now_isoformat env (clock_reads s))])%list.
Proof.
  intros Htok. rewrite book_event_run, Htok. cbv zeta.
  split_run; reflexivity.
Qed.

(** C5, as amended.  With an access token present, the request
    [submit_visitor_permit] sends carries a payload with the visitor data
    and the submission timestamp read from the clock.  When the response
    status is 201 and the body decodes to a JSON object whose [permit_id]
    entry standard output can print (it is not a str holding a surrogate),
    the method returns that object, whose [permit_id] entry is the one of
    the response; on any other status, and on a network exception of class
    [RequestException], it returns [None]. *)
Theorem submit_visitor_permit_spec (env : Env) (v : pyval) (s : State)
  (Htok : truthy (access_token (self s)) = true) :
  let now := now_isoformat env (clock_reads s) in
  let req := permit_request (self s) v now in
  sends_payload s (snd (submit_visitor_permit env v s))
    [("visitor_info", v); ("submission_date", PyStr now)] /\
  (forall r d,
      network env (List.length (sent s)) req = Ok r ->
      status_code r = 201 ->
      json r = Ok (PyDict d) ->
      printable_value (dict_get d "permit_id" PyNone) = true ->
      exists permit,
        fst (submit_visitor_permit env v s) = Ok (Some permit) /\
        json r = Ok permit /\
        py_get permit "permit_id" PyNone = Ok (dict_get d "permit_id" PyNone)) /\
  (forall r,
      network env (List.length (sent s)) req = Ok r ->
      status_code r <> 201 ->
      fst (submit_visitor_permit env v s) = Ok None) /\
  (forall msg,
      network env (List.length (sent s)) req = Raise (RequestException msg) ->
      fst (submit_visitor_permit env v s) = Ok None).
Proof.
  intros now req. split.
  - exists req, [("visitor_info", v); ("submission_date", PyStr now); ("api_version", PyStr "v1")].
    split; [apply submit_visitor_permit_sent; exact Htok |].
    split; [reflexivity |]. split; [reflexivity |].
    repeat constructor.
  - rewrite submit_visitor_permit_run, Htok. cbv zeta. fold now. fold req.
    repeat split.
    + intros r d Hnet Hst Hjson Hprint. exists (PyDict d).
      rewrite Hnet, Hst, Hjson. cbn. rewrite Hprint. repeat split.
    + intros r Hnet Hst. rewrite Hnet.
      destruct (Z.eqb_spec (status_code r) 201); [contradiction | reflexivity].
    + intros msg Hnet. rewrite Hnet. reflexivity.
Qed.

Lemma submit_visitor_permit_spec_witness :
  truthy (access_token (self state1)) = true /\
  exists permit,
    fst (submit_visitor_permit (const_env (Ok (mkResponse 201 (Ok permit_body)))) visitor_data
           state1) = Ok (Some permit) /\
    json (mkResponse 201 (Ok permit_body)) = Ok permit /\
    py_get permit "permit_id" PyNone = Ok (PyStr "PRM-42").
Proof.
  split; [reflexivity |].
  apply (proj1 (proj2 (submit_visitor_permit_spec
                         (const_env (Ok (mkResponse 201 (Ok permit_body)))) visitor_data
                         state1 eq_refl))
           (mkResponse 201 (Ok permit_body))
           [("permit_id", PyStr "PRM-42"); ("status", PyStr "pending")]);
    reflexivity.
Defined.

(** Inside those conditions the printed line matters too: a 201 object
    whose [permit_id] is the lone surrogate U+D800 makes [print] raise
    [UnicodeEncodeError], which the [except] clause does not catch, after
    the request was sent and before anything is returned. *)
Example submit_visitor_permit_201_surrogate_id :
  submit_visitor_permit
    (const_env (Ok (mkResponse 201 (Ok (PyDict [("permit_id", PyStr surrogate_d800)])))))
    visitor_data state1 =
  (Raise (UnicodeEncodeError "surrogates not allowed"),
   with_request (permit_request client1 visitor_data "2024-01-15T10:00:00")
     (with_clock_read state1)).
Proof. reflexivity. Qed.

(** C5 as stated fails: with a token present and a 201 response whose
    decoded body is a JSON array holding the permit record, [permit.get]
    raises [AttributeError] and no record is returned. *)
Lemma submit_visitor_permit_201_array_body :
  truthy (access_token (self state1)) = true /\
  status_code (array_response 201 permit_body) = 201 /\
  submit_visitor_permit (const_env (Ok (array_response 201 permit_body))) visitor_data state1 =
    (Raise (AttributeError "object has no attribute 'get'"),
     with_request (permit_request client1 visitor_data "2024-01-15T10:00:00")
       (with_clock_read state1)) /\
  forall permit,
    fst (submit_visitor_permit (const_env (Ok (array_response 201 permit_body)))
           visitor_data state1) <> Ok permit.
Proof.
  split; [reflexivity |]. split; [reflexivity |]. split; [reflexivity |]. discriminate.
Qed.

(** C6, as amended.  With an access token present, the request [book_event]
    sends carries a payload with the event id, the attendee count and the
    booking timestamp read from the clock.  When the response status is 201
    and the body decodes to a JSON object whose [booking_id] entry standard
    output can print (it is not a str holding a surrogate), the method
    returns that object, whose [booking_id] entry is the one of the
    response; on any other status, and on a network exception of class
    [RequestException], it returns [None]. *)
Theorem book_event_spec (env : Env) (ev n : pyval) (s : State)
  (Htok : truthy (access_token (self s)) = true) :
  let now := now_isoformat env (clock_reads s) in
  let req := booking_request (self s) ev n now in
  sends_payload s (snd (book_event env ev n s))
    [("event_id", ev); ("attendee_count", n); ("booking_date", PyStr now)] /\
  (forall r d,
      network env (List.length (sent s)) req = Ok r ->
      status_code r = 201 ->
      json r = Ok (PyDict d) ->
      printable_value (dict_get d "booking_id" PyNone) = true ->
      exists booking,
        fst (book_event env ev n s) = Ok (Some booking) /\
        json r = Ok booking /\
        py_get booking "booking_id" PyNone = Ok (dict_get d "booking_id" PyNone)) /\
  (forall r,
      network env (List.length (sent s)) req = Ok r ->
      status_code r <> 201 ->
      fst (book_event env ev n s) = Ok None) /\
  (forall msg,
      network env (List.length (sent s)) req = Raise (RequestException msg) ->
      fst (book_event env ev n s) = Ok None).
Proof.
  intros now req. split.
  - exists req, [("event_id", ev); ("attendee_count", n); ("booking_date", PyStr now)].
    split; [apply book_event_sent; exact Htok |].
    split; [reflexivity |]. split; [reflexivity |].
    repeat constructor.
  - rewrite book_event_run, Htok. cbv zeta. fold now. fold req.
    repeat split.
    + intros r d Hnet Hst Hjson Hprint. exists (PyDict d).
      rewrite Hnet, Hst, Hjson. cbn. rewrite Hprint. repeat split.
    + intros r Hnet Hst. rewrite Hnet.
      destruct (Z.eqb_spec (status_code r) 201); [contradiction | reflexivity].
    + intros msg Hnet. rewrite Hnet. reflexivity.
Qed.

Lemma book_event_spec_witness :
  truthy (access_token (self state1)) = true /\
  exists booking,
    fst (book_event (const_env (Ok (mkResponse 201 (Ok booking_body))))
           (PyStr "evt_12345") (PyInt 2) state1) = Ok (Some booking) /\
    json (mkResponse 201 (Ok booking_body)) = Ok booking /\
    py_get booking "booking_id" PyNone = Ok (PyStr "BKG-7").
Proof.
  split; [reflexivity |].
  apply (proj1 (proj2 (book_event_spec
                         (const_env (Ok (mkResponse 201 (Ok booking_body))))
                         (PyStr "evt_12345") (PyInt 2) state1 eq_refl))
           (mkResponse 201 (Ok booking_body))
           [("booking_id", PyStr "BKG-7"); ("event_id", PyStr "evt_12345")]);
    reflexivity.
Defined.

(** The same for [book_event]: a 201 object whose [booking_id] holds a
    lone surrogate raises [UnicodeEncodeError] from the success line. *)
Example book_event_201_surrogate_id :
  book_event
    (const_env (Ok (mkResponse 201 (Ok (PyDict [("booking_id", PyStr surrogate_d800)])))))
    (PyStr "evt_12345") (PyInt 2) state1 =
  (Raise (UnicodeEncodeError "surrogates not allowed"),
   with_request (booking_request client1 (PyStr "evt_12345") (PyInt 2) "2024-01-15T10:00:00")
     (with_clock_read state1)).
Proof. reflexivity. Qed.

(** C6 as stated fails: with a token present and a 201 response whose
    decoded body is a JSON string, [booking.get] raises [AttributeError]
    and no record is returned. *)
Lemma book_event_201_string_body :
  truthy (access_token (self state1)) = true /\
  book_event (const_env (Ok (mkResponse 201 (Ok (PyStr "BKG-7")))))
    (PyStr "evt_12345") (PyInt 2) state1 =
    (Raise (AttributeError "object has no attribute 'get'"),
     with_request (booking_request client1 (PyStr "evt_12345") (PyInt 2) "2024-01-15T10:00:00")
       (with_clock_read state1)) /\
  forall booking,
    fst (book_event (const_env (Ok (mkResponse 201 (Ok (PyStr "BKG-7")))))
           (PyStr "evt_12345") (PyInt 2) state1) <> Ok booking.
Proof.
  split; [reflexivity |]. split; [reflexivity |]. discriminate.
Qed.

(** ** Exceptions *)

Lemma authenticate_raises (env : Env) (s : State) (e : exn) :
  fst (authenticate env s) = Raise e -> is_RequestException e = false.
Proof.
  rewrite authenticate_run. cbv zeta.
  split_run; intros H; inversion H; subst; auto.
Qed.

Lemma get_heritage_sites_raises (env : Env) (s : State) (e : exn) :
  fst (get_heritage_sites env s) = Raise e -> is_RequestException e = false.
Proof.
  rewrite get_heritage_sites_run. cbv zeta.
  split_run; intros H; inversion H; subst; auto.
Qed.

Lemma submit_visitor_permit_raises (env : Env) (v : pyval) (s : State) (e : exn) :
  fst (submit_visitor_permit env v s) = Raise e -> is_RequestException e = false.
Proof.
  rewrite submit_visitor_permit_run. cbv zeta.
  split_run; intros H; inversion H; subst; auto.
Qed.

Lemma book_event_raises (env : Env) (ev n : pyval) (s : State) (e : exn) :
  fst (book_event env ev n s) = Raise e -> is_RequestException e = false.
Proof.
  rewrite book_event_run. cbv zeta.
  split_run; intros H; inversion H; subst; auto.
Qed.

Lemma authenticate_failed_call (env : Env) (s : State) :
  failed_call 200 (network env (List.length (sent s)) (auth_request (self s))) ->
  reports (authenticate env s) s false.
Proof.
  intros Hfail. rewrite authenticate_run. cbv zeta. unfold reports.
  inversion Hfail as [msg Hnet | r Hst Hnet | r msg Hst Hjson Hnet].
  - cbn. eauto.
  - destruct (Z.eqb_spec (status_code r) 200); [contradiction |]. cbn. eauto.
  - rewrite Hst, Hjson. cbn. eauto.
Qed.

Lemma get_heritage_sites_failed_call (env : Env) (s : State) :
  failed_call 200 (network env (List.length (sent s)) (sites_request (self s))) ->
  reports (get_heritage_sites env s) s None.
Proof.
  intros Hfail. rewrite get_heritage_sites_run. cbv zeta. unfold reports.
  destruct (truthy (access_token (self s))); [| cbn; eauto].
  inversion Hfail as [msg Hnet | r Hst Hnet | r msg Hst Hjson Hnet].
  - cbn. eauto.
  - destruct (Z.eqb_spec (status_code r) 200); [contradiction |]. cbn. eauto.
  - rewrite Hst, Hjson. cbn. eauto.
Qed.

Lemma submit_visitor_permit_failed_call (env : Env) (v : pyval) (s : State) :
  failed_call 201
    (network env (List.length (sent s))
       (permit_request (self s) v (now_isoformat env (clock_reads s)))) ->
  reports (submit_visitor_permit env v s) s None.
Proof.
  intros Hfail. rewrite submit_visitor_permit_run. cbv zeta. unfold reports.
  destruct (truthy (access_token (self s))); [| cbn; eauto].
  inversion Hfail as [msg Hnet | r Hst Hnet | r msg Hst Hjson Hnet].
  - cbn. eauto.
  - destruct (Z.eqb_spec (status_code r) 201); [contradiction |]. cbn. eauto.
  - rewrite Hst, Hjson. cbn. eauto.
Qed.

Lemma book_event_failed_call (env : Env) (ev n : pyval) (s : State) :
  failed_call 201
    (network env (List.length (sent s))
       (booking_request (self s) ev n (now_isoformat env (clock_reads s)))) ->
  reports (book_event env ev n s) s None.
Proof.
  intros Hfail. rewrite book_event_run. cbv zeta. unfold reports.
  destruct (truthy (access_token (self s))); [| cbn; eauto].
  inversion Hfail as [msg Hnet | r Hst Hnet | r msg Hst Hjson Hnet].
  - cbn. eauto.
  - destruct (Z.eqb_spec (status_code r) 201); [contradiction |]. cbn. eauto.
  - rewrite Hst, Hjson. cbn. eauto.
Qed.

(** C7, as amended.  No exception of class [RequestException] propagates
    out of any of the four client methods: a network error, a status other
    than the success code, and an error of that class raised while the body
    is decoded as JSON are each converted into a [False] or [None] return
    value and one printed line. *)
Theorem request_exceptions_are_converted (env : Env) (s : State) (v ev n : pyval) :
  let now := now_isoformat env (clock_reads s) in
  let outcome := network env (List.length (sent s)) in
  ((failed_call 200 (outcome (auth_request (self s))) ->
    reports (authenticate env s) s false) /\
   (failed_call 200 (outcome (sites_request (self s))) ->
    reports (get_heritage_sites env s) s None) /\
   (failed_call 201 (outcome (permit_request (self s) v now)) ->
    reports (submit_visitor_permit env v s) s None) /\
   (failed_call 201 (outcome (booking_request (self s) ev n now)) ->
    reports (book_event env ev n s) s None)) /\
  (forall e,
      fst (authenticate env s) = Raise e \/
      fst (get_heritage_sites env s) = Raise e \/
      fst (submit_visitor_permit env v s) = Raise e \/
      fst (book_event env ev n s) = Raise e ->
      is_RequestException e = false).
Proof.
  cbv zeta. split.
  - split; [| split; [| split]].
    + apply authenticate_failed_call.
    + apply get_heritage_sites_failed_call.
    + apply submit_visitor_permit_failed_call.
    + apply book_event_failed_call.
  - intros e [H | [H | [H | H]]].
    + exact (authenticate_raises env s e H).
    + exact (get_heritage_sites_raises env s e H).
    + exact (submit_visitor_permit_raises env v s e H).
    + exact (book_event_raises env ev n s e H).
Qed.

Lemma request_exceptions_are_converted_witness :
  reports (authenticate (const_env (Raise (RequestException "timed out"))) state0) state0 false.
Proof.
  apply (proj1 (proj1 (request_exceptions_are_converted
                         (const_env (Raise (RequestException "timed out"))) state0
                         PyNone PyNone PyNone))).
  apply network_error.
Defined.

(** C7 as stated fails: exceptions of other classes propagate.  On a 200
    response whose body is a JSON string, [authenticate] raises
    [AttributeError]; on a 200 response whose [sites] entry is [null],
    [get_heritage_sites] raises [TypeError]; and an error raised by
    [response.json()] that is not a [RequestException] leaves
    [submit_visitor_permit] as it is. *)
Lemma other_exceptions_propagate :
  fst (authenticate (const_env (Ok (mkResponse 200 (Ok (PyStr "ok"))))) state0) =
    Raise (AttributeError "object has no attribute 'get'") /\
  fst (get_heritage_sites
         (const_env (Ok (mkResponse 200 (Ok (PyDict [("sites", PyNone)]))))) state1) =
    Raise (TypeError "object has no len()") /\
  fst (submit_visitor_permit
         (const_env (Ok (mkResponse 201 (Raise (ValueError "Expecting value")))))
         visitor_data state1) =
    Raise (ValueError "Expecting value").
Proof.
  repeat split.
Qed.

(** ** The client across operations *)

Lemma get_heritage_sites_self (env : Env) (s : State) :
  self (snd (get_heritage_sites env s)) = self s.
Proof.
  rewrite get_heritage_sites_run. cbv zeta. split_run; reflexivity.
Qed.

Lemma submit_visitor_permit_self (env : Env) (v : pyval) (s : State) :
  self (snd (submit_visitor_permit env v s)) = self s.
Proof.
  rewrite submit_visitor_permit_run. cbv zeta. split_run; reflexivity.
Qed.

Lemma book_event_self (env : Env) (ev n : pyval) (s : State) :
  self (snd (book_event env ev n s)) = self s.
Proof.
  rewrite book_event_run. cbv zeta. split_run; reflexivity.
Qed.

Lemma authenticate_credentials (env : Env) (s : State) :
  same_credentials (self s) (self (snd (authenticate env s))).
Proof.
  rewrite authenticate_run. cbv zeta. unfold same_credentials.
  split_run; repeat split.
Qed.

Lemma authenticate_self (env : Env) (s : State) :
  fst (authenticate env s) <> Ok true ->
  self (snd (authenticate env s)) = self s.
Proof.
  rewrite authenticate_run. cbv zeta.
  split_run; intros H; try reflexivity; contradiction H; reflexivity.
Qed.

Lemma run_operation_self (env : Env) (op : operation) (s : State) :
  fst (run_operation env op s) <> Authenticated (Ok true) ->
  self (snd (run_operation env op s)) = self s.
Proof.
  destruct op; cbn; intros H.
  - apply authenticate_self. intros E. apply H. rewrite E. reflexivity.
  - apply get_heritage_sites_self.
  - apply submit_visitor_permit_self.
  - apply book_event_self.
Qed.

Lemma run_operation_credentials (env : Env) (op : operation) (s : State) :
  same_credentials (self s) (self (snd (run_operation env op s))).
Proof.
  destruct op; cbn.
  - apply authenticate_credentials.
  - rewrite get_heritage_sites_self. repeat split.
  - rewrite submit_visitor_permit_self. repeat split.
  - rewrite book_event_self. repeat split.
Qed.

(** C9.  Over every sequence of client operations the credentials
    ([api_key], [secret_key], [client_id]) stay what the constructor set;
    the access token changes only in an [authenticate] call that returns
    [True]; and [get_heritage_sites], [submit_visitor_permit] and
    [book_event] each leave the whole client unchanged. *)
Theorem client_state_frame (env : Env) (ops : list operation) (s : State) :
  same_credentials (self s) (self (snd (run_operations env ops s))) /\
  (~ In (Authenticated (Ok true)) (fst (run_operations env ops s)) ->
   self (snd (run_operations env ops s)) = self s) /\
  (forall op, is_authenticate op = false ->
              self (snd (run_operation env op s)) = self s).
Proof.
  split; [| split].
  - revert s. induction ops as [| op ops IH]; intros s.
    + repeat split.
    + cbn. destruct (IH (snd (run_operation env op s))) as (Ha & Hs & Hc).
      destruct (run_operation_credentials env op s) as (Ha' & Hs' & Hc').
      unfold same_credentials. rewrite Ha, Hs, Hc. auto.
  - revert s. induction ops as [| op ops IH]; intros s Hnot.
    + reflexivity.
    + cbn in *. rewrite IH by tauto.
      apply run_operation_self. intros E. apply Hnot. left. exact E.
  - intros op Hop. apply run_operation_self.
    destruct op; [discriminate | cbn; discriminate ..].
Qed.

Lemma client_state_frame_witness :
  self (snd (run_operations (const_env (Ok (mkResponse 503 (Ok (PyDict [])))))
               [GetHeritageSites; Authenticate; SubmitVisitorPermit visitor_data;
                BookEvent (PyStr "evt_12345") (PyInt 2)]
               state1)) = self state1.
Proof.
  apply (proj1 (proj2 (client_state_frame
                         (const_env (Ok (mkResponse 503 (Ok (PyDict [])))))
                         [GetHeritageSites; Authenticate; SubmitVisitorPermit visitor_data;
                          BookEvent (PyStr "evt_12345") (PyInt 2)]
                         state1))).
  cbn. intros [H | [H | [H | [H | []]]]]; discriminate H.
Defined.

(** ** A successful [authenticate] that leaves the client without a token *)

Lemma run_operations_refused (env : Env) (ops : list operation) (s : State) :
  truthy (access_token (self s)) = false ->
  existsb is_authenticate ops = false ->
  Forall (fun o => o = Returned (Ok None)) (fst (run_operations env ops s)) /\
  sent (snd (run_operations env ops s)) = sent s /\
  self (snd (run_operations env ops s)) = self s.
Proof.
  revert s. induction ops as [| op ops IH]; intros s Htok Hops.
  - repeat split. constructor.
  - cbn in Hops. apply orb_false_iff in Hops. destruct Hops as [Hop Hops].
    assert (Hstep : fst (run_operation env op s) = Returned (Ok None) /\
                    sent (snd (run_operation env op s)) = sent s /\
                    self (snd (run_operation env op s)) = self s).
    { destruct op as [| | v | ev n]; [discriminate Hop | | |]; cbn.
      - destruct (get_heritage_sites_refused env s Htok) as (-> & Hs & _ & Hc & _). auto.
      - destruct (submit_visitor_permit_refused env v s Htok) as (-> & Hs & _ & Hc & _). auto.
      - destruct (book_event_refused env ev n s Htok) as (-> & Hs & _ & Hc & _). auto. }
    destruct Hstep as (Hres & Hsent & Hself).
    destruct (IH (snd (run_operation env op s))) as (Hall & Hsent' & Hself').
    + rewrite Hself. exact Htok.
    + exact Hops.
    + cbn. repeat split.
      * constructor; assumption.
      * rewrite Hsent'. exact Hsent.
      * rewrite Hself'. exact Hself.
Qed.

(** C10.  There is a response on which [authenticate] returns [True] while
    the stored access token is [None] or empty.  On every 200 response
    whose JSON object has no [access_token] entry, or one Python counts as
    false, [authenticate] stores that value and returns [True]; every later
    [get_heritage_sites], [submit_visitor_permit] and [book_event] call
    then returns [None] without issuing a network request. *)
Theorem authenticate_true_without_token :
  (exists env s,
      fst (authenticate env s) = Ok true /\
      access_token (self (snd (authenticate env s))) = PyNone) /\
  (exists env s,
      fst (authenticate env s) = Ok true /\
      access_token (self (snd (authenticate env s))) = PyStr "") /\
  (forall env s r d,
      network env (List.length (sent s)) (auth_request (self s)) = Ok r ->
      status_code r = 200 ->
      json r = Ok (PyDict d) ->
      truthy (dict_get d "access_token" PyNone) = false ->
      fst (authenticate env s) = Ok true /\
      access_token (self (snd (authenticate env s))) = dict_get d "access_token" PyNone /\
      forall ops,
        existsb is_authenticate ops = false ->
        Forall (fun o => o = Returned (Ok None))
          (fst (run_operations env ops (snd (authenticate env s)))) /\
        sent (snd (run_operations env ops (snd (authenticate env s)))) =
          sent (snd (authenticate env s))).
Proof.
  split; [| split].
  - exists (const_env (Ok (mkResponse 200 (Ok (PyDict []))))), state0.
    split; reflexivity.
  - exists (const_env (Ok (mkResponse 200 (Ok (PyDict [("access_token", PyStr "")]))))), state0.
    split; reflexivity.
  - intros env s r d Hnet Hst Hjson Hfalsy.
    rewrite (authenticate_object_body env s r d Hnet Hst Hjson). cbn [fst snd].
    split; [reflexivity |]. split; [reflexivity |].
    intros ops Hops.
    destruct (run_operations_refused env ops
                (with_line authenticated_line
                   (with_token (dict_get d "access_token" PyNone)
                      (with_request (auth_request (self s)) s)))) as (Hall & Hsent & _).
    + exact Hfalsy.
    + exact Hops.
    + split; assumption.
Qed.

Lemma authenticate_true_without_token_witness :
  fst (authenticate (const_env (Ok (mkResponse 200 (Ok (PyDict [("token", PyStr "tok_1")])))))
         state0) = Ok true /\
  access_token
    (self (snd (authenticate
                  (const_env (Ok (mkResponse 200 (Ok (PyDict [("token", PyStr "tok_1")])))))
                  state0))) = PyNone.
Proof.
  destruct (proj2 (proj2 authenticate_true_without_token)
              (const_env (Ok (mkResponse 200 (Ok (PyDict [("token", PyStr "tok_1")])))))
              state0
              (mkResponse 200 (Ok (PyDict [("token", PyStr "tok_1")])))
              [("token", PyStr "tok_1")]
              eq_refl eq_refl eq_refl eq_refl) as (Hres & Htok & _).
  split; [exact Hres | exact Htok].
Defined.

(** ** Properties of [main] *)

Lemma authenticate_sent (env : Env) (s : State) :
  sent (snd (authenticate env s)) = (sent s ++ [auth_request (self s)])%list.
Proof.
  rewrite authenticate_run. cbv zeta. split_run; reflexivity.
Qed.

Lemma main_run (env : Env) (s0 : State) :
  main env s0 =
  match authenticate env (before_authenticate s0) with
  | (Ok true, s1) =>
      match get_heritage_sites env (step2 s1) with
      | (Ok _, s2) =>
          match submit_visitor_permit env visitor_data (step3 s2) with
          | (Ok _, s3) =>
              match book_event env (PyStr "evt_12345") (PyInt 2) (step4 s3) with
              | (Ok _, s4) => (Ok tt, completed s4)
              | (Raise e, s4) => (Raise e, s4)
              end
          | (Raise e, s3) => (Raise e, s3)
          end
      | (Raise e, s2) => (Raise e, s2)
      end
  | (Ok false, s1) => (Ok tt, aborted s1)
  | (Raise e, s1) => (Raise e, s1)
  end.
Proof.
  unfold main. unfold_py. cbn.
  change (authenticate env _) with (authenticate env (before_authenticate s0)).
  destruct (authenticate env (before_authenticate s0)) as [[[] | e] s1];
    [| reflexivity | reflexivity].
  change (get_heritage_sites env _) with (get_heritage_sites env (step2 s1)).
  destruct (get_heritage_sites env (step2 s1)) as [[sites | e] s2]; [| reflexivity].
  change (submit_visitor_permit env visitor_data _)
    with (submit_visitor_permit env visitor_data (step3 s2)).
  destruct (submit_visitor_permit env visitor_data (step3 s2)) as [[permit | e] s3];
    [| reflexivity].
  change (book_event env (PyStr "evt_12345") (PyInt 2) _)
    with (book_event env (PyStr "evt_12345") (PyInt 2) (step4 s3)).
  destruct (book_event env (PyStr "evt_12345") (PyInt 2) (step4 s3)) as [[booking | e] s4];
    reflexivity.
Qed.

(** What a call made with a token does to the state besides printing. *)
Lemma authenticate_clock (env : Env) (s : State) :
  clock_reads (snd (authenticate env s)) = clock_reads s.
Proof.
  rewrite authenticate_run. cbv zeta. split_run; reflexivity.
Qed.

Lemma get_heritage_sites_effect (env : Env) (s : State) :
  truthy (access_token (self s)) = true ->
  sent (snd (get_heritage_sites env s)) = (sent s ++ [sites_request (self s)])%list /\
  clock_reads (snd (get_heritage_sites env s)) = clock_reads s.
Proof.
  intros Htok. rewrite get_heritage_sites_run, Htok. cbv zeta.
  split_run; split; reflexivity.
Qed.

Lemma submit_visitor_permit_clock (env : Env) (v : pyval) (s : State) :
  truthy (access_token (self s)) = true ->
  clock_reads (snd (submit_visitor_permit env v s)) = S (clock_reads s).
Proof.
  intros Htok. rewrite submit_visitor_permit_run, Htok. cbv zeta.
  split_run; reflexivity.
Qed.

Lemma main_requests (env : Env) (s0 : State) :
  let s1 := snd (authenticate env (before_authenticate s0)) in
  fst (authenticate env (before_authenticate s0)) = Ok true ->
  truthy (access_token (self s1)) = true ->
  fst (main env s0) = Ok tt ->
  sent (snd (main env s0)) =
  (sent s0 ++
   [ auth_request client0;
     sites_request (self s1);
     permit_request (self s1) visitor_data (now_isoformat env (clock_reads s0));
     booking_request (self s1) (PyStr "evt_12345") (PyInt 2)
       (now_isoformat env (S (clock_reads s0))) ])%list.
Proof.
  intros s1 Hauth Htok. subst s1. rewrite main_run.
  pose proof (authenticate_sent env (before_authenticate s0)) as Hsent1.
  pose proof (authenticate_clock env (before_authenticate s0)) as Hclock1.
  destruct (authenticate env (before_authenticate s0)) as [r1 s1].
  cbn [fst snd] in *. subst r1.
  destruct (get_heritage_sites_effect env (step2 s1) Htok) as [Hsent2 Hclock2].
  pose proof (get_heritage_sites_self env (step2 s1)) as Hself2.
  destruct (get_heritage_sites env (step2 s1)) as [[sites | e] s2];
    [| discriminate].
  cbn [fst snd] in *.
  assert (Htok2 : truthy (access_token (self (step3 s2))) = true).
  { change (self (step3 s2)) with (self s2). rewrite Hself2. exact Htok. }
  pose proof (submit_visitor_permit_sent env visitor_data (step3 s2) Htok2) as Hsent3.
  pose proof (submit_visitor_permit_clock env visitor_data (step3 s2) Htok2) as Hclock3.
  pose proof (submit_visitor_permit_self env visitor_data (step3 s2)) as Hself3.
  destruct (submit_visitor_permit env visitor_data (step3 s2)) as [[permit | e] s3];
    [| discriminate].
  cbn [fst snd] in *.
  assert (Htok3 : truthy (access_token (self (step4 s3))) = true).
  { change (self (step4 s3)) with (self s3). rewrite Hself3. exact Htok2. }
  pose proof (book_event_sent env (PyStr "evt_12345") (PyInt 2) (step4 s3) Htok3) as Hsent4.
  destruct (book_event env (PyStr "evt_12345") (PyInt 2) (step4 s3)) as [[booking | e] s4];
    [| discriminate].
  cbn [fst snd] in *. intros _.
  change (sent (completed s4)) with (sent s4).
  change (self (step4 s3)) with (self s3) in Hsent4.
  change (sent (step4 s3)) with (sent s3) in Hsent4.
  change (clock_reads (step4 s3)) with (clock_reads s3) in Hsent4.
  change (self (step3 s2)) with (self s2) in Hsent3, Hself3, Hclock3.
  change (sent (step3 s2)) with (sent s2) in Hsent3.
  change (clock_reads (step3 s2)) with (clock_reads s2) in Hsent3, Hclock3.
  change (self (step2 s1)) with (self s1) in Hsent2, Hself2.
  change (sent (step2 s1)) with (sent s1) in Hsent2.
  change (clock_reads (step2 s1)) with (clock_reads s1) in Hclock2.
  change (sent (before_authenticate s0)) with (sent s0) in Hsent1.
  change (self (before_authenticate s0)) with client0 in Hsent1.
  change (clock_reads (before_authenticate s0)) with (clock_reads s0) in Hclock1.
  rewrite Hsent4, Hsent3, Hsent2, Hsent1, Hself3, Hself2, Hclock3, Hclock2, Hclock1.
  rewrite <- !app_assoc. reflexivity.
Qed.

(** One case of [main_run]: the calls named by the hypotheses are the ones
    [main] branches on. *)
Ltac main_case :=
  rewrite main_run;
  repeat match goal with
    | H : fst ?c = _ |- context [match ?c with _ => _ end] =>
        destruct c as [? ?]; cbn [fst snd] in *; subst
    end;
  reflexivity.

(** C8, as amended.  In [main]: when [authenticate] returns [False], the
    run ends after the failure lines and nothing but the authentication
    request was sent.  When it returns [True], [get_heritage_sites] is
    called, then [submit_visitor_permit] if that call returned, then
    [book_event] if that one returned too, each from the state the one
    before it left and whatever was returned, [None] included; a step that
    raises ends the run with its exception, as [main] has no handler. *)
Theorem main_sequence (env : Env) (s0 : State) :
  let call1 := authenticate env (before_authenticate s0) in
  let call2 := get_heritage_sites env (step2 (snd call1)) in
  let call3 := submit_visitor_permit env visitor_data (step3 (snd call2)) in
  let call4 := book_event env (PyStr "evt_12345") (PyInt 2) (step4 (snd call3)) in
  (fst call1 = Ok false ->
   main env s0 = (Ok tt, aborted (snd call1)) /\
   sent (snd (main env s0)) = (sent s0 ++ [auth_request client0])%list) /\
  (fst call1 = Ok true ->
   (forall e, fst call2 = Raise e -> main env s0 = (Raise e, snd call2)) /\
   (forall sites, fst call2 = Ok sites ->
    (forall e, fst call3 = Raise e -> main env s0 = (Raise e, snd call3)) /\
    (forall permit, fst call3 = Ok permit ->
     (forall e, fst call4 = Raise e -> main env s0 = (Raise e, snd call4)) /\
     (forall booking, fst call4 = Ok booking ->
      main env s0 = (Ok tt, completed (snd call4)) /\
      (truthy (access_token (self (snd call1))) = true ->
       sent (snd (main env s0)) =
       (sent s0 ++
        [ auth_request client0;
          sites_request (self (snd call1));
          permit_request (self (snd call1)) visitor_data
            (now_isoformat env (clock_reads s0));
          booking_request (self (snd call1)) (PyStr "evt_12345") (PyInt 2)
            (now_isoformat env (S (clock_reads s0))) ])%list))))).
Proof.
  cbv zeta. split.
  - intros Hauth.
    assert (Hmain : main env s0 =
                    (Ok tt, aborted (snd (authenticate env (before_authenticate s0))))).
    { main_case. }
    split; [exact Hmain |].
    rewrite Hmain. cbn [snd].
    change (sent (aborted ?s)) with (sent s).
    apply authenticate_sent.
  - intros Hauth. split; [intros e H2; main_case |].
    intros sites H2. split; [intros e H3; main_case |].
    intros permit H3. split; [intros e H4; main_case |].
    intros booking H4.
    assert (Hmain : main env s0 =
      (Ok tt,
       completed
         (snd (book_event env (PyStr "evt_12345") (PyInt 2)
                 (step4 (snd (submit_visitor_permit env visitor_data
                                (step3 (snd (get_heritage_sites env
                                               (step2 (snd (authenticate env
                                                             (before_authenticate s0)))))))))))))).
    { main_case. }
    split; [exact Hmain |].
    intros Htok. apply main_requests; [exact Hauth | exact Htok |].
    rewrite Hmain. reflexivity.
Qed.

Lemma main_sequence_witness :
  fst (get_heritage_sites unavailable_env
         (step2 (snd (authenticate unavailable_env (before_authenticate state0))))) = Ok None /\
  fst (main unavailable_env state0) = Ok tt /\
  sent (snd (main unavailable_env state0)) =
    [ auth_request client0;
      sites_request client1;
      permit_request client1 visitor_data "2024-01-15T10:00:00";
      booking_request client1 (PyStr "evt_12345") (PyInt 2) "2024-01-15T10:00:01" ].
Proof.
  split; [reflexivity |].
  destruct (proj2 (proj2 (proj2 (proj2 (main_sequence unavailable_env state0) eq_refl)
                            None eq_refl)
                     None eq_refl)
              None eq_refl) as [Hmain Hsent].
  split.
  - rewrite Hmain. reflexivity.
  - exact (Hsent eq_refl).
Defined.

(** C8 as stated fails: [authenticate] returns [True], the site list
    arrives as a JSON array, [get_heritage_sites] raises [AttributeError],
    and [main], which has no handler, ends there: steps 3 and 4 are not
    announced and their requests are not sent. *)
Lemma main_stops_when_a_step_raises :
  fst (authenticate array_sites_env (before_authenticate state0)) = Ok true /\
  fst (main array_sites_env state0) = Raise (AttributeError "object has no attribute 'get'") /\
  sent (snd (main array_sites_env state0)) = [auth_request client0; sites_request client1] /\
  ~ In [Lit "Step 3: Submitting visitor permit application..."]
      (stdout (snd (main array_sites_env state0))) /\
  ~ In [Lit "Step 4: Booking an event..."] (stdout (snd (main array_sites_env state0))).
Proof.
  split; [reflexivity |]. split; [reflexivity |]. split; [reflexivity |].
  split; vm_compute; intros H;
    repeat (destruct H as [H | H]; [discriminate H |]); exact H.
Qed.


(** The run of [main] against a server that accepts everything: the four
    status lines, in order, among the lines printed. *)
Example main_happy_run :
  fst (main happy_env state0) = Ok tt /\
  self (snd (main happy_env state0)) = client1 /\
  filter (fun t => match t with Lit _ :: _ :: _ => true | _ => false end)
    (stdout (snd (main happy_env state0))) =
    [ [Lit "Connecting to RCU services at: "; Lit "https://api.rcu.gov.sa"];
      [Lit "✓ Successfully authenticated with RCU at "; Lit "https://api.rcu.gov.sa"];
      [Lit "✓ Retrieved "; Fmt (PyInt 2); Lit " heritage sites"];
      [Lit "✓ Permit submitted successfully. Permit ID: "; Fmt (PyStr "PRM-42")];
      [Lit "✓ Event booked successfully. Booking ID: "; Fmt (PyStr "BKG-7")] ].
Proof.
  repeat split.
Qed.

(** Against a server that refuses the credentials [main] stops after the
    authentication request. *)
Example main_refused_run :
  fst (main (const_env (Ok (mkResponse 401 (Ok (PyDict []))))) state0) = Ok tt /\
  sent (snd (main (const_env (Ok (mkResponse 401 (Ok (PyDict []))))) state0)) =
    [auth_request client0] /\
  List.length (stdout (snd (main (const_env (Ok (mkResponse 401 (Ok (PyDict []))))) state0)))
    = 13%nat.
Proof.
  repeat split.
Qed.

(** An exception in an intermediate step does end the run: the site list
    arrives as a JSON array, and steps 3 and 4 are not reached. *)
Example main_interrupted_run :
  let env :=
    mkEnv (fun n _ => match n with
                      | O => Ok token_response
                      | S _ => Ok (mkResponse 200 (Ok sites_array))
                      end)
          (fun _ => "2024-01-15T10:00:00") in
  fst (main env state0) = Raise (AttributeError "object has no attribute 'get'") /\
  sent (snd (main env state0)) = [auth_request client0; sites_request client1].
Proof.
  repeat split.
Qed.

(** ** Requests on the wire *)

Lemma run_operation_sent (env : Env) (op : operation) (s : State) :
  sent (snd (run_operation env op s)) = (sent s ++ opt_list (request_of env op s))%list.
Proof.
  destruct op as [| | v | ev n]; cbn [run_operation request_of snd].
  - apply authenticate_sent.
  - destruct (truthy (access_token (self s))) eqn:Htok.
    + apply (get_heritage_sites_effect env s Htok).
    + destruct (get_heritage_sites_refused env s Htok) as (_ & -> & _).
      symmetry. apply app_nil_r.
  - destruct (truthy (access_token (self s))) eqn:Htok.
    + apply (submit_visitor_permit_sent env v s Htok).
    + destruct (submit_visitor_permit_refused env v s Htok) as (_ & -> & _).
      symmetry. apply app_nil_r.
  - destruct (truthy (access_token (self s))) eqn:Htok.
    + apply (book_event_sent env ev n s Htok).
    + destruct (book_event_refused env ev n s Htok) as (_ & -> & _).
      symmetry. apply app_nil_r.
Qed.

(** The requests of a sequence of calls: each comes from one of the calls,
    made by a client with the credentials of the start. *)
Lemma run_operations_sent (env : Env) (ops : list operation) (s : State) :
  exists new,
    sent (snd (run_operations env ops s)) = (sent s ++ new)%list /\
    (List.length new <= List.length ops)%nat /\
    Forall (fun r => exists op s',
                same_credentials (self s) (self s') /\
                request_of env op s' = Some r) new.
Proof.
  revert s. induction ops as [| op ops IH]; intros s.
  - exists []. cbn. rewrite app_nil_r. repeat split; auto.
  - destruct (IH (snd (run_operation env op s))) as (new & Hsent & Hlen & Hall).
    exists (opt_list (request_of env op s) ++ new)%list.
    cbn [run_operations snd]. rewrite Hsent, run_operation_sent, <- app_assoc.
    split; [reflexivity |]. split.
    + rewrite length_app. cbn [List.length].
      destruct (request_of env op s); cbn; lia.
    + apply Forall_app. split.
      * destruct (request_of env op s) as [r |] eqn:Hreq; cbn; constructor; [| constructor].
        exists op, s. split; [repeat split | exact Hreq].
      * eapply Forall_impl; [| exact Hall].
        intros r (op' & s' & Hcred & Hreq). exists op', s'. split; [| exact Hreq].
        destruct (run_operation_credentials env op s) as (Ha & Hs & Hc).
        destruct Hcred as (Ha' & Hs' & Hc').
        unfold same_credentials. rewrite Ha', Hs', Hc'. auto.
Qed.

Lemma request_of_some (env : Env) (op : operation) (s : State) :
  is_authenticate op || truthy (access_token (self s)) = true ->
  exists r, request_of env op s = Some r.
Proof.
  destruct op; cbn; intros H; try rewrite H; eexists; reflexivity.
Qed.

Lemma request_of_none (env : Env) (op : operation) (s : State) :
  is_authenticate op || truthy (access_token (self s)) = false ->
  request_of env op s = None.
Proof.
  destruct op; cbn; intros H; try rewrite H; [discriminate | reflexivity ..].
Qed.

(** X1.  No call retries or batches: a call sends one request when it is
    [authenticate] or the client holds a token, and none otherwise, whatever
    the server answers; a sequence of calls sends at most one request per
    call and never drops one that was sent. *)
Theorem one_request_per_call (env : Env) (ops : list operation) (s : State) :
  (forall op,
      List.length (sent (snd (run_operation env op s))) =
      (List.length (sent s) +
       (if is_authenticate op || truthy (access_token (self s)) then 1 else 0))%nat) /\
  (exists new,
      sent (snd (run_operations env ops s)) = (sent s ++ new)%list /\
      (List.length new <= List.length ops)%nat).
Proof.
  split.
  - intros op. rewrite run_operation_sent, length_app.
    destruct (is_authenticate op || truthy (access_token (self s))) eqn:H.
    + destruct (request_of_some env op s H) as [r ->]. reflexivity.
    + rewrite (request_of_none env op s H). reflexivity.
  - destruct (run_operations_sent env ops s) as (new & Hsent & Hlen & _).
    exists new. split; assumption.
Qed.

Lemma request_of_endpoint (env : Env) (op : operation) (s : State) (r : Request) :
  request_of env op s = Some r ->
  exists k,
    In k ["auth"; "heritage_sites"; "permits"; "event_booking"] /\
    In (k, url r) ENDPOINTS /\
    method r = (if String.eqb k "heritage_sites" then GET else POST).
Proof.
  destruct op as [| | v | ev n]; cbn [request_of];
    split_run; intros H; inversion H; subst.
  - exists "auth". repeat split; cbn; auto 10.
  - exists "heritage_sites". repeat split; cbn; auto 10.
  - exists "permits". repeat split; cbn; auto 10.
  - exists "event_booking". repeat split; cbn; auto 10.
Qed.

(** X2.  Every request a sequence of calls sends goes to the URL
    [ENDPOINTS] gives for [auth], [heritage_sites], [permits] or
    [event_booking], a GET for [heritage_sites] and a POST for the others;
    the [visitor_management] endpoint is never contacted. *)
Theorem requests_stay_on_endpoints (env : Env) (ops : list operation) (s : State) :
  exists new,
    sent (snd (run_operations env ops s)) = (sent s ++ new)%list /\
    Forall (fun r =>
              (exists k,
                  In k ["auth"; "heritage_sites"; "permits"; "event_booking"] /\
                  In (k, url r) ENDPOINTS /\
                  method r = (if String.eqb k "heritage_sites" then GET else POST)) /\
              ~ In ("visitor_management", url r) ENDPOINTS) new.
Proof.
  destruct (run_operations_sent env ops s) as (new & Hsent & _ & Hall).
  exists new. split; [exact Hsent |].
  eapply Forall_impl; [| exact Hall].
  intros r (op & s' & _ & Hreq).
  destruct (request_of_endpoint env op s' r Hreq) as (k & Hk & Hin & Hm).
  split; [exists k; auto |].
  intros Hbad. cbn in Hin, Hbad, Hk.
  repeat match goal with
         | H : _ \/ _ |- _ => destruct H
         | H : False |- _ => destruct H
         | H : (_, _) = (_, _) |- _ => inversion H; clear H; subst
         end; congruence.
Qed.

Lemma request_of_api_key (env : Env) (op : operation) (s : State) (r : Request) :
  request_of env op s = Some r ->
  In ("X-API-Key", [Lit (api_key (self s))]) (headers r).
Proof.
  destruct op as [| | v | ev n]; cbn [request_of];
    split_run; intros H; inversion H; subst;
    cbn; auto.
Qed.

(** X3.  Every request a sequence of calls sends carries the header
    [X-API-Key] with the API key the client had at the start. *)
Theorem requests_carry_api_key (env : Env) (ops : list operation) (s : State) :
  exists new,
    sent (snd (run_operations env ops s)) = (sent s ++ new)%list /\
    Forall (fun r => In ("X-API-Key", [Lit (api_key (self s))]) (headers r)) new.
Proof.
  destruct (run_operations_sent env ops s) as (new & Hsent & _ & Hall).
  exists new. split; [exact Hsent |].
  eapply Forall_impl; [| exact Hall].
  intros r (op & s' & (Ha & _) & Hreq).
  rewrite <- Ha. exact (request_of_api_key env op s' r Hreq).
Qed.

Lemma request_of_bearer (env : Env) (op : operation) (s : State) (r : Request) :
  request_of env op s = Some r ->
  url r = url (auth_request (self s)) \/
  In ("Authorization", [Lit "Bearer "; Fmt (access_token (self s))]) (headers r).
Proof.
  destruct op as [| | v | ev n]; cbn [request_of];
    split_run; intros H; inversion H; subst;
    cbn; auto.
Qed.

(** X4.  A token is kept for as long as no [authenticate] call returns
    [True]: from a client holding a token, every call of such a sequence
    sends its request, failed re-authentications included, and every
    request but those to the auth endpoint carries [Authorization: Bearer]
    with that same token. *)
Theorem token_outlives_failures (env : Env) (ops : list operation) (s : State)
  (Htok : truthy (access_token (self s)) = true)
  (Hnone : ~ In (Authenticated (Ok true)) (fst (run_operations env ops s))) :
  exists new,
    sent (snd (run_operations env ops s)) = (sent s ++ new)%list /\
    List.length new = List.length ops /\
    Forall (fun r =>
              url r = url (auth_request (self s)) \/
              In ("Authorization", [Lit "Bearer "; Fmt (access_token (self s))]) (headers r))
      new.
Proof.
  revert s Htok Hnone. induction ops as [| op ops IH]; intros s Htok Hnone.
  - exists []. cbn. rewrite app_nil_r. auto.
  - cbn [run_operations fst snd] in *.
    assert (Hself : self (snd (run_operation env op s)) = self s).
    { apply run_operation_self. intros E. apply Hnone. left. exact E. }
    destruct (IH (snd (run_operation env op s))) as (new & Hsent & Hlen & Hall).
    + rewrite Hself. exact Htok.
    + intros Hin. apply Hnone. right. exact Hin.
    + destruct (request_of_some env op s) as [r Hreq].
      { rewrite Htok. apply orb_true_r. }
      exists (r :: new). rewrite Hsent, run_operation_sent, Hreq, <- app_assoc.
      split; [reflexivity |]. split; [cbn; congruence |].
      constructor.
      * exact (request_of_bearer env op s r Hreq).
      * rewrite Hself in Hall. exact Hall.
Qed.

Lemma token_outlives_failures_witness :
  exists new,
    sent (snd (run_operations (const_env (Ok (mkResponse 503 (Ok (PyDict [])))))
                 [GetHeritageSites; Authenticate; BookEvent (PyStr "evt_12345") (PyInt 2)]
                 state1)) = (sent state1 ++ new)%list /\
    List.length new = 3%nat /\
    Forall (fun r =>
              url r = url (auth_request client1) \/
              In ("Authorization", [Lit "Bearer "; Fmt (PyStr "tok_1")]) (headers r))
      new.
Proof.
  apply (token_outlives_failures
           (const_env (Ok (mkResponse 503 (Ok (PyDict [])))))
           [GetHeritageSites; Authenticate; BookEvent (PyStr "evt_12345") (PyInt 2)]
           state1).
  - reflexivity.
  - cbn. intros [H | [H | [H | []]]]; discriminate H.
Defined.

(** ** What a result tells about the response *)

Lemma is_RequestException_inv (e : exn) :
  is_RequestException e = true -> exists msg, e = RequestException msg.
Proof.
  destruct e; try discriminate. intros _. eexists; reflexivity.
Qed.

(** X5.  [authenticate] returns [True] exactly when the server answered 200
    with a body that decodes to a JSON object, and [False] exactly when the
    POST raised a [RequestException], the status was not 200, or decoding
    the body of a 200 raised a [RequestException]. *)
Theorem authenticate_result_iff (env : Env) (s : State) :
  (fst (authenticate env s) = Ok true <->
   exists r d,
     network env (List.length (sent s)) (auth_request (self s)) = Ok r /\
     status_code r = 200 /\
     json r = Ok (PyDict d)) /\
  (fst (authenticate env s) = Ok false <->
   failed_call 200 (network env (List.length (sent s)) (auth_request (self s)))).
Proof.
  split; split.
  - rewrite authenticate_run. cbv zeta.
    destruct (network env _ _) as [r | e] eqn:Hnet.
    + destruct (Z.eqb_spec (status_code r) 200) as [Hst | Hst]; [| discriminate].
      destruct (json r) as [[] | e] eqn:Hjson; cbn; try discriminate.
      * intros _. eauto.
      * destruct (is_RequestException e); discriminate.
    + destruct (is_RequestException e); discriminate.
  - intros (r & d & Hnet & Hst & Hjson).
    rewrite (authenticate_object_body env s r d Hnet Hst Hjson). reflexivity.
  - rewrite authenticate_run. cbv zeta.
    destruct (network env _ _) as [r | e] eqn:Hnet.
    + destruct (Z.eqb_spec (status_code r) 200) as [Hst | Hst].
      * destruct (json r) as [[] | e] eqn:Hjson; cbn; try discriminate.
        destruct (is_RequestException e) eqn:He; [| discriminate].
        destruct (is_RequestException_inv e He) as [msg ->].
        intros _. eapply decode_error; eauto.
      * intros _. apply bad_status. exact Hst.
    + destruct (is_RequestException e) eqn:He; [| discriminate].
      destruct (is_RequestException_inv e He) as [msg ->].
      intros _. apply network_error.
  - intros Hfail. apply (authenticate_failed_call env s Hfail).
Qed.

Lemma get_heritage_sites_some (env : Env) (s : State) (v : pyval) :
  fst (get_heritage_sites env s) = Ok (Some v) ->
  truthy (access_token (self s)) = true /\
  exists r d,
    network env (List.length (sent s)) (sites_request (self s)) = Ok r /\
    status_code r = 200 /\ json r = Ok v /\ v = PyDict d.
Proof.
  rewrite get_heritage_sites_run. cbv zeta.
  destruct (truthy (access_token (self s))); [| discriminate].
  destruct (network env _ _) as [r | e] eqn:Hnet.
  - destruct (Z.eqb_spec (status_code r) 200) as [Hst | Hst]; [| discriminate].
    destruct (json r) as [[] | e] eqn:Hjson; cbn; try discriminate.
    + destruct (py_len _); cbn; [| discriminate].
      intros H. inversion H; subst. eauto 10.
    + destruct (is_RequestException e); discriminate.
  - destruct (is_RequestException e); discriminate.
Qed.

Lemma submit_visitor_permit_some (env : Env) (vd : pyval) (s : State) (v : pyval) :
  fst (submit_visitor_permit env vd s) = Ok (Some v) ->
  truthy (access_token (self s)) = true /\
  exists r d,
    network env (List.length (sent s))
      (permit_request (self s) vd (now_isoformat env (clock_reads s))) = Ok r /\
    status_code r = 201 /\ json r = Ok v /\ v = PyDict d.
Proof.
  rewrite submit_visitor_permit_run. cbv zeta.
  destruct (truthy (access_token (self s))); [| discriminate].
  destruct (network env _ _) as [r | e] eqn:Hnet.
  - destruct (Z.eqb_spec (status_code r) 201) as [Hst | Hst]; [| discriminate].
    destruct (json r) as [[] | e] eqn:Hjson; cbn; try discriminate.
    + destruct (printable_value _); cbn; [| discriminate].
      intros H. inversion H; subst. eauto 10.
    + destruct (is_RequestException e); discriminate.
  - destruct (is_RequestException e); discriminate.
Qed.

Lemma book_event_some (env : Env) (ev n : pyval) (s : State) (v : pyval) :
  fst (book_event env ev n s) = Ok (Some v) ->
  truthy (access_token (self s)) = true /\
  exists r d,
    network env (List.length (sent s))
      (booking_request (self s) ev n (now_isoformat env (clock_reads s))) = Ok r /\
    status_code r = 201 /\ json r = Ok v /\ v = PyDict d.
Proof.
  rewrite book_event_run. cbv zeta.
  destruct (truthy (access_token (self s))); [| discriminate].
  destruct (network env _ _) as [r | e] eqn:Hnet.
  - destruct (Z.eqb_spec (status_code r) 201) as [Hst | Hst]; [| discriminate].
    destruct (json r) as [[] | e] eqn:Hjson; cbn; try discriminate.
    + destruct (printable_value _); cbn; [| discriminate].
      intros H. inversion H; subst. eauto 10.
    + destruct (is_RequestException e); discriminate.
  - destruct (is_RequestException e); discriminate.
Qed.

(** X6.  A value returned by [get_heritage_sites], [submit_visitor_permit]
    or [book_event] is never made up: the client held a token, the request
    of the call was answered with the success code of the operation, and
    the value is the decoded body of that response, a JSON object. *)
Theorem returned_value_is_response_body (env : Env) (op : operation) (s : State)
  (v : pyval)
  (Hret : fst (run_operation env op s) = Returned (Ok (Some v))) :
  truthy (access_token (self s)) = true /\
  exists req r d,
    request_of env op s = Some req /\
    network env (List.length (sent s)) req = Ok r /\
    status_code r = success_code op /\
    json r = Ok v /\
    v = PyDict d.
Proof.
  destruct op as [| | vd | ev n]; cbn [run_operation fst] in Hret; [discriminate | | |];
    injection Hret as Hret; cbn [request_of success_code].
  - destruct (get_heritage_sites_some env s v Hret) as (Htok & r & d & H).
    rewrite Htok. split; [reflexivity |]. exists (sites_request (self s)), r, d. tauto.
  - destruct (submit_visitor_permit_some env vd s v Hret) as (Htok & r & d & H).
    rewrite Htok. split; [reflexivity |]. eexists _, r, d. split; [reflexivity | tauto].
  - destruct (book_event_some env ev n s v Hret) as (Htok & r & d & H).
    rewrite Htok. split; [reflexivity |]. eexists _, r, d. split; [reflexivity | tauto].
Qed.

Lemma returned_value_is_response_body_witness :
  exists req r d,
    request_of (const_env (Ok (mkResponse 201 (Ok permit_body))))
      (SubmitVisitorPermit visitor_data) state1 = Some req /\
    network (const_env (Ok (mkResponse 201 (Ok permit_body)))) (List.length (sent state1)) req
      = Ok r /\
    status_code r = 201 /\
    json r = Ok permit_body /\
    permit_body = PyDict d.
Proof.
  apply (returned_value_is_response_body
           (const_env (Ok (mkResponse 201 (Ok permit_body))))
           (SubmitVisitorPermit visitor_data) state1 permit_body).
  reflexivity.
Defined.

(** ** What a call prints *)






Lemma dict_get_absent (d : list (string * pyval)) (key : string) (default : pyval) :
  ~ In key (map fst d) -> dict_get d key default = default.
Proof.
  induction d as [| [k v] d IH]; cbn; intros Hnot; [reflexivity |].
  destruct (String.eqb_spec k key) as [-> | _]; [tauto |].
  apply IH. tauto.
Qed.

(** X8.  With a token present, a 200 response whose JSON object holds a
    list of N sites under [sites] makes [get_heritage_sites] print
    "Retrieved N heritage sites" and return the object; an object without a
    [sites] entry is reported as 0 sites. *)
Theorem get_heritage_sites_reports_count (env : Env) (s : State) (r : Response)
  (d : list (string * pyval))
  (Htok : truthy (access_token (self s)) = true)
  (Hnet : network env (List.length (sent s)) (sites_request (self s)) = Ok r)
  (Hst : status_code r = 200)
  (Hjson : json r = Ok (PyDict d)) :
  (forall l,
      dict_get d "sites" (PyList []) = PyList l ->
      get_heritage_sites env s =
      (Ok (Some (PyDict d)),
       with_line [Lit "✓ Retrieved "; Fmt (PyInt (Z.of_nat (List.length l)));
                  Lit " heritage sites"]
         (with_request (sites_request (self s)) s))) /\
  (~ In "sites" (map fst d) ->
   get_heritage_sites env s =
   (Ok (Some (PyDict d)),
    with_line [Lit "✓ Retrieved "; Fmt (PyInt 0); Lit " heritage sites"]
      (with_request (sites_request (self s)) s))).
Proof.
  rewrite get_heritage_sites_run, Htok. cbv zeta. rewrite Hnet, Hst, Hjson. cbn.
  split.
  - intros l Hl. rewrite Hl. reflexivity.
  - intros Habs. rewrite (dict_get_absent d "sites" (PyList []) Habs). reflexivity.
Qed.

Lemma get_heritage_sites_reports_count_witness :
  stdout (snd (get_heritage_sites (const_env (Ok (mkResponse 200 (Ok sites_body)))) state1)) =
  [[Lit "✓ Retrieved "; Fmt (PyInt 2); Lit " heritage sites"]].
Proof.
  rewrite (proj1 (get_heritage_sites_reports_count
                    (const_env (Ok (mkResponse 200 (Ok sites_body)))) state1
                    (mkResponse 200 (Ok sites_body))
                    [("sites", PyList [PyDict [("name", PyStr "Hegra")];
                                       PyDict [("name", PyStr "Dadan")]])]
                    eq_refl eq_refl eq_refl eq_refl)
             [PyDict [("name", PyStr "Hegra")]; PyDict [("name", PyStr "Dadan")]]
             eq_refl).
  reflexivity.
Defined.

(** X9.  When the server answers a request with a status other than the
    success code of the operation, the call prints its failure line with
    that status code and reports failure ([False] from [authenticate],
    [None] from the others); the body of such a response is not decoded, so
    it cannot make the call raise. *)
Theorem failure_line_names_status (env : Env) (op : operation) (s : State)
  (req : Request) (r : Response)
  (Hreq : request_of env op s = Some req)
  (Hnet : network env (List.length (sent s)) req = Ok r)
  (Hst : status_code r <> success_code op) :
  fst (run_operation env op s) = failure_outcome op /\
  stdout (snd (run_operation env op s)) =
    (stdout s ++ [[Lit (failure_words op); Fmt (PyInt (status_code r))]])%list.
Proof.
  destruct op as [| | v | ev n];
    cbn [run_operation request_of success_code failure_outcome failure_words fst snd] in *.
  - injection Hreq as <-. rewrite (authenticate_bad_status env s r Hnet Hst).
    split; reflexivity.
  - rewrite get_heritage_sites_run.
    destruct (truthy (access_token (self s))); [| discriminate].
    injection Hreq as <-. cbv zeta. rewrite Hnet.
    destruct (Z.eqb_spec (status_code r) 200); [contradiction |]. split; reflexivity.
  - rewrite submit_visitor_permit_run.
    destruct (truthy (access_token (self s))); [| discriminate].
    injection Hreq as <-. cbv zeta. rewrite Hnet.
    destruct (Z.eqb_spec (status_code r) 201); [contradiction |]. split; reflexivity.
  - rewrite book_event_run.
    destruct (truthy (access_token (self s))); [| discriminate].
    injection Hreq as <-. cbv zeta. rewrite Hnet.
    destruct (Z.eqb_spec (status_code r) 201); [contradiction |]. split; reflexivity.
Qed.

Lemma failure_line_names_status_witness :
  fst (run_operation (const_env (Ok (mkResponse 200 (Raise (ValueError "Expecting value")))))
         (BookEvent (PyStr "evt_12345") (PyInt 2)) state1) = Returned (Ok None) /\
  stdout (snd (run_operation
                 (const_env (Ok (mkResponse 200 (Raise (ValueError "Expecting value")))))
                 (BookEvent (PyStr "evt_12345") (PyInt 2)) state1)) =
    [[Lit "✗ Failed to book event: "; Fmt (PyInt 200)]].
Proof.
  apply (failure_line_names_status
           (const_env (Ok (mkResponse 200 (Raise (ValueError "Expecting value")))))
           (BookEvent (PyStr "evt_12345") (PyInt 2)) state1
           (booking_request client1 (PyStr "evt_12345") (PyInt 2) "2024-01-15T10:00:00")
           (mkResponse 200 (Raise (ValueError "Expecting value")))).
  - reflexivity.
  - reflexivity.
  - discriminate.
Defined.

(** ** The clock *)

(** X10.  The clock is read once by every [submit_visitor_permit] and
    [book_event] call that passes the gate, whatever becomes of its
    request, and never by [authenticate], by [get_heritage_sites] or by a
    call refused at the gate; over a sequence of calls the number of
    readings grows by at most one per call. *)
Theorem clock_reads_per_call (env : Env) (ops : list operation) (s : State) :
  (forall op,
      clock_reads (snd (run_operation env op s)) =
      (clock_reads s + (if stamps op s then 1 else 0))%nat) /\
  (clock_reads s <= clock_reads (snd (run_operations env ops s))
   <= clock_reads s + List.length ops)%nat.
Proof.
  assert (Hone : forall op s',
             clock_reads (snd (run_operation env op s')) =
             (clock_reads s' + (if stamps op s' then 1 else 0))%nat).
  { intros op s'. destruct op as [| | v | ev n]; cbn [run_operation stamps snd].
    - rewrite authenticate_clock. lia.
    - rewrite get_heritage_sites_run. cbv zeta. split_run; lia.
    - rewrite submit_visitor_permit_run. cbv zeta. split_run; lia.
    - rewrite book_event_run. cbv zeta. split_run; lia. }
  split; [intros op; apply Hone |].
  revert s. induction ops as [| op ops IH]; intros s.
  - cbn. lia.
  - cbn [run_operations snd List.length].
    specialize (IH (snd (run_operation env op s))). rewrite Hone in IH.
    destruct (stamps op s); lia.
Qed.

(** ** Orderly servers *)

Lemma authenticate_orderly (env : Env) (s : State) :
  orderly env -> exists b, fst (authenticate env s) = Ok b.
Proof.
  intros H. specialize (H (List.length (sent s)) (auth_request (self s))).
  rewrite authenticate_run. cbv zeta.
  destruct (network env _ _) as [r | e]; [| rewrite H; cbn; eauto].
  unfold well_shaped in H.
  destruct (Z.eqb_spec (status_code r) 200) as [Hst | Hst]; [| cbn; eauto].
  specialize (H (or_introl Hst)).
  destruct (json r) as [[] | e]; try contradiction; cbn; eauto.
  rewrite H. cbn. eauto.
Qed.

Lemma get_heritage_sites_orderly (env : Env) (s : State) :
  orderly env -> exists v, fst (get_heritage_sites env s) = Ok v.
Proof.
  intros H. specialize (H (List.length (sent s)) (sites_request (self s))).
  rewrite get_heritage_sites_run. cbv zeta.
  destruct (truthy (access_token (self s))); [| cbn; eauto].
  destruct (network env _ _) as [r | e]; [| rewrite H; cbn; eauto].
  unfold well_shaped in H.
  destruct (Z.eqb_spec (status_code r) 200) as [Hst | Hst]; [| cbn; eauto].
  specialize (H (or_introl Hst)).
  destruct (json r) as [[] | e]; try contradiction; cbn [py_get].
  - destruct (py_len_sized _ (proj1 H Hst)) as [n ->]. cbn. eauto.
  - rewrite H. cbn. eauto.
Qed.

Lemma submit_visitor_permit_orderly (env : Env) (v : pyval) (s : State) :
  orderly env -> exists p, fst (submit_visitor_permit env v s) = Ok p.
Proof.
  intros H.
  specialize (H (List.length (sent s))
                (permit_request (self s) v (now_isoformat env (clock_reads s)))).
  rewrite submit_visitor_permit_run. cbv zeta.
  destruct (truthy (access_token (self s))); [| cbn; eauto].
  destruct (network env _ _) as [r | e]; [| rewrite H; cbn; eauto].
  unfold well_shaped in H.
  destruct (Z.eqb_spec (status_code r) 201) as [Hst | Hst]; [| cbn; eauto].
  specialize (H (or_intror Hst)).
  destruct (json r) as [[] | e]; try contradiction; cbn; eauto.
  - destruct (proj2 H Hst) as [-> _]. cbn. eauto.
  - rewrite H. cbn. eauto.
Qed.

Lemma book_event_orderly (env : Env) (ev n : pyval) (s : State) :
  orderly env -> exists b, fst (book_event env ev n s) = Ok b.
Proof.
  intros H.
  specialize (H (List.length (sent s))
                (booking_request (self s) ev n (now_isoformat env (clock_reads s)))).
  rewrite book_event_run. cbv zeta.
  destruct (truthy (access_token (self s))); [| cbn; eauto].
  destruct (network env _ _) as [r | e]; [| rewrite H; cbn; eauto].
  unfold well_shaped in H.
  destruct (Z.eqb_spec (status_code r) 201) as [Hst | Hst]; [| cbn; eauto].
  specialize (H (or_intror Hst)).
  destruct (json r) as [[] | e]; try contradiction; cbn; eauto.
  - destruct (proj2 H Hst) as [_ ->]. cbn. eauto.
  - rewrite H. cbn. eauto.
Qed.

(** X11.  Against a server whose every outcome is a [RequestException] or
    a response that, under status 200 or 201, carries a JSON object (with a
    [sites] of some length under 200, and with [permit_id] and
    [booking_id] that standard output can print under 201) or fails to
    decode with a [RequestException], nothing ever raises: every call of
    every sequence returns, and [main] runs to its end from any state. *)
Theorem orderly_server_never_raises (env : Env) (Hord : orderly env) :
  (forall ops s, Forall (fun o => raised o = false) (fst (run_operations env ops s))) /\
  (forall s0, fst (main env s0) = Ok tt).
Proof.
  split.
  - intros ops. induction ops as [| op ops IH]; intros s; cbn [run_operations fst].
    + constructor.
    + constructor; [| apply IH].
      destruct op as [| | v | ev n]; cbn [run_operation fst raised].
      * destruct (authenticate_orderly env s Hord) as [b ->]. reflexivity.
      * destruct (get_heritage_sites_orderly env s Hord) as [b ->]. reflexivity.
      * destruct (submit_visitor_permit_orderly env v s Hord) as [b ->]. reflexivity.
      * destruct (book_event_orderly env ev n s Hord) as [b ->]. reflexivity.
  - intros s0. rewrite main_run.
    destruct (authenticate_orderly env (before_authenticate s0) Hord) as [b Hb].
    destruct (authenticate env (before_authenticate s0)) as [r1 s1].
    cbn [fst] in Hb. subst r1. destruct b; [| reflexivity].
    destruct (get_heritage_sites_orderly env (step2 s1) Hord) as [v2 H2].
    destruct (get_heritage_sites env (step2 s1)) as [r2 s2].
    cbn [fst] in H2. subst r2.
    destruct (submit_visitor_permit_orderly env visitor_data (step3 s2) Hord) as [v3 H3].
    destruct (submit_visitor_permit env visitor_data (step3 s2)) as [r3 s3].
    cbn [fst] in H3. subst r3.
    destruct (book_event_orderly env (PyStr "evt_12345") (PyInt 2) (step4 s3) Hord)
      as [v4 H4].
    destruct (book_event env (PyStr "evt_12345") (PyInt 2) (step4 s3)) as [r4 s4].
    cbn [fst] in H4. subst r4. reflexivity.
Qed.

Lemma happy_env_orderly : orderly happy_env.
Proof.
  intros [| [| [| n]]] req; cbn; unfold well_shaped; cbn; intros _;
    (split; [intros H; first [reflexivity | discriminate H]
            | intros H; first [discriminate H | split; reflexivity]]).
Defined.

Lemma orderly_server_never_raises_witness :
  fst (main happy_env state0) = Ok tt.
Proof.
  apply (proj2 (orderly_server_never_raises happy_env happy_env_orderly)).
Defined.

(** ** More on [main] *)

Lemma main_raises (env : Env) (s0 : State) (e : exn) :
  fst (main env s0) = Raise e -> is_RequestException e = false.
Proof.
  rewrite main_run.
  pose proof (authenticate_raises env (before_authenticate s0)) as H1.
  destruct (authenticate env (before_authenticate s0)) as [[[] | e1] s1]; cbn [fst] in *;
    [| discriminate | intros H; injection H as <-; apply H1; reflexivity].
  pose proof (get_heritage_sites_raises env (step2 s1)) as H2.
  destruct (get_heritage_sites env (step2 s1)) as [[v2 | e2] s2]; cbn [fst] in *;
    [| intros H; injection H as <-; apply H2; reflexivity].
  pose proof (submit_visitor_permit_raises env visitor_data (step3 s2)) as H3.
  destruct (submit_visitor_permit env visitor_data (step3 s2)) as [[v3 | e3] s3];
    cbn [fst] in *; [| intros H; injection H as <-; apply H3; reflexivity].
  pose proof (book_event_raises env (PyStr "evt_12345") (PyInt 2) (step4 s3)) as H4.
  destruct (book_event env (PyStr "evt_12345") (PyInt 2) (step4 s3)) as [[v4 | e4] s4];
    cbn [fst] in *; [discriminate | intros H; injection H as <-; apply H4; reflexivity].
Qed.

Lemma opt_list_length {A} (o : option A) : (List.length (opt_list o) <= 1)%nat.
Proof.
  destruct o; cbn; lia.
Qed.

Lemma main_sent (env : Env) (s0 : State) :
  exists rest,
    sent (snd (main env s0)) = (sent s0 ++ auth_request client0 :: rest)%list /\
    (List.length rest <= 3)%nat.
Proof.
  rewrite main_run.
  pose proof (authenticate_sent env (before_authenticate s0)) as H1.
  change (sent (before_authenticate s0)) with (sent s0) in H1.
  change (self (before_authenticate s0)) with client0 in H1.
  destruct (authenticate env (before_authenticate s0)) as [[[] | e1] s1]; cbn [snd] in *;
    [| exists []; split; [exact H1 | cbn; lia] ..].
  pose proof (run_operation_sent env GetHeritageSites (step2 s1)) as H2.
  cbn [run_operation snd] in H2. change (sent (step2 s1)) with (sent s1) in H2.
  set (q2 := opt_list (request_of env GetHeritageSites (step2 s1))) in *.
  assert (L2 : (List.length q2 <= 1)%nat).
  { apply opt_list_length. }
  destruct (get_heritage_sites env (step2 s1)) as [[v2 | e2] s2]; cbn [snd] in *;
    [| exists q2; rewrite H2, H1, <- app_assoc; split; [reflexivity | lia]].
  pose proof (run_operation_sent env (SubmitVisitorPermit visitor_data) (step3 s2)) as H3.
  cbn [run_operation snd] in H3. change (sent (step3 s2)) with (sent s2) in H3.
  set (q3 := opt_list (request_of env (SubmitVisitorPermit visitor_data) (step3 s2))) in *.
  assert (L3 : (List.length q3 <= 1)%nat).
  { apply opt_list_length. }
  destruct (submit_visitor_permit env visitor_data (step3 s2)) as [[v3 | e3] s3];
    cbn [snd] in *;
    [| exists (q2 ++ q3)%list; rewrite H3, H2, H1, <- !app_assoc;
       split; [reflexivity | rewrite length_app; lia]].
  pose proof (run_operation_sent env (BookEvent (PyStr "evt_12345") (PyInt 2)) (step4 s3))
    as H4.
  cbn [run_operation snd] in H4. change (sent (step4 s3)) with (sent s3) in H4.
  set (q4 := opt_list (request_of env (BookEvent (PyStr "evt_12345") (PyInt 2)) (step4 s3)))
    in *.
  assert (L4 : (List.length q4 <= 1)%nat).
  { apply opt_list_length. }
  exists (q2 ++ q3 ++ q4)%list.
  assert (Hs4 : sent (snd (book_event env (PyStr "evt_12345") (PyInt 2) (step4 s3))) =
                (sent s0 ++ auth_request client0 :: q2 ++ q3 ++ q4)%list).
  { rewrite H4, H3, H2, H1, <- !app_assoc. reflexivity. }
  split; [| rewrite !length_app; lia].
  destruct (book_event env (PyStr "evt_12345") (PyInt 2) (step4 s3)) as [[v4 | e4] s4];
    cbn [snd] in *; exact Hs4.
Qed.

(** X12.  Whatever the server does and whatever state it starts from,
    [main] first sends the authentication request built from the
    module-level credentials, sends at most three requests after it, and
    lets no [RequestException] escape. *)
Theorem main_bounds (env : Env) (s0 : State) :
  (exists rest,
      sent (snd (main env s0)) = (sent s0 ++ auth_request client0 :: rest)%list /\
      (List.length rest <= 3)%nat) /\
  (forall e, fst (main env s0) = Raise e -> is_RequestException e = false).
Proof.
  split; [apply main_sent | apply main_raises].
Qed.

(** ** Composition with [authenticate] *)

(** X13.  The token the server issues is the token the client presents:
    after an [authenticate] answered by 200 with a JSON object whose
    [access_token] Python counts as true, the next [get_heritage_sites],
    [submit_visitor_permit] or [book_event] call sends one request, with
    the header [Authorization: Bearer] followed by that value. *)
Theorem issued_token_is_presented (env : Env) (s : State) (r : Response)
  (d : list (string * pyval)) (op : operation)
  (Hnet : network env (List.length (sent s)) (auth_request (self s)) = Ok r)
  (Hst : status_code r = 200)
  (Hjson : json r = Ok (PyDict d))
  (Htok : truthy (dict_get d "access_token" PyNone) = true)
  (Hop : is_authenticate op = false) :
  exists req,
    sent (snd (run_operation env op (snd (authenticate env s)))) =
      (sent s ++ [auth_request (self s); req])%list /\
    In ("Authorization", [Lit "Bearer "; Fmt (dict_get d "access_token" PyNone)])
      (headers req).
Proof.
  rewrite run_operation_sent.
  rewrite (authenticate_object_body env s r d Hnet Hst Hjson). cbn [snd].
  set (s1 := with_line authenticated_line
               (with_token (dict_get d "access_token" PyNone)
                  (with_request (auth_request (self s)) s))).
  destruct (request_of_some env op s1) as [req Hreq].
  { cbn. rewrite Htok. apply orb_true_r. }
  exists req. rewrite Hreq. cbn [opt_list]. split.
  - cbn. rewrite <- app_assoc. reflexivity.
  - destruct (request_of_bearer env op s1 req Hreq) as [Hurl | Hin]; [| exact Hin].
    destruct op as [| | v | ev n]; [discriminate Hop | | |]; cbn [request_of] in Hreq;
      change (truthy (access_token (self s1)))
        with (truthy (dict_get d "access_token" PyNone)) in Hreq;
      rewrite Htok in Hreq; injection Hreq as <-; discriminate Hurl.
Qed.

Lemma issued_token_is_presented_witness :
  exists req,
    sent (snd (run_operation unavailable_env GetHeritageSites
                 (snd (authenticate unavailable_env state0)))) =
      [auth_request client0; req] /\
    In ("Authorization", [Lit "Bearer "; Fmt (PyStr "tok_1")]) (headers req).
Proof.
  apply (issued_token_is_presented unavailable_env state0 token_response
           [("access_token", PyStr "tok_1"); ("expires_in", PyInt 3600)]
           GetHeritageSites);
    reflexivity.
Defined.

(** ** Where exceptions come from *)

Lemma authenticate_raise_origin (env : Env) (s : State) (e : exn) :
  fst (authenticate env s) = Raise e ->
  network env (List.length (sent s)) (auth_request (self s)) = Raise e \/
  exists r,
    network env (List.length (sent s)) (auth_request (self s)) = Ok r /\
    status_code r = 200 /\
    (json r = Raise e \/ exists v, json r = Ok v /\ forall d, v <> PyDict d).
Proof.
  rewrite authenticate_run. cbv zeta.
  destruct (network env _ _) as [r | e0] eqn:Hnet.
  - destruct (Z.eqb_spec (status_code r) 200) as [Hst | Hst]; [| discriminate].
    destruct (json r) as [v | e0] eqn:Hjson.
    + destruct v; cbn; try discriminate;
        intros _; right; exists r;
        (split; [reflexivity | split; [exact Hst | right]]);
        eexists; (split; [exact Hjson | discriminate]).
    + destruct (is_RequestException e0); [discriminate |].
      cbn. intros H. injection H as <-. right. exists r. auto.
  - destruct (is_RequestException e0); [discriminate |].
    cbn. intros H. injection H as <-. left. reflexivity.
Qed.

Lemma get_heritage_sites_raise_origin (env : Env) (s : State) (e : exn) :
  fst (get_heritage_sites env s) = Raise e ->
  truthy (access_token (self s)) = true /\
  (network env (List.length (sent s)) (sites_request (self s)) = Raise e \/
   exists r,
     network env (List.length (sent s)) (sites_request (self s)) = Ok r /\
     status_code r = 200 /\
     (json r = Raise e \/
      exists v, json r = Ok v /\
                forall d, v = PyDict d -> sized (dict_get d "sites" (PyList [])) = false)).
Proof.
  rewrite get_heritage_sites_run. cbv zeta.
  destruct (truthy (access_token (self s))); [| discriminate]. split; [reflexivity |].
  revert H. destruct (network env _ _) as [r | e0] eqn:Hnet.
  - destruct (Z.eqb_spec (status_code r) 200) as [Hst | Hst]; [| discriminate].
    destruct (json r) as [v | e0] eqn:Hjson.
    + intros H. right. exists r. split; [reflexivity | split; [exact Hst | right]].
      exists v.
      split; [exact Hjson |]. intros d ->. cbn in H.
      destruct (dict_get d "sites" (PyList [])); cbn in *; try reflexivity; discriminate.
    + destruct (is_RequestException e0); [discriminate |].
      cbn. intros H. injection H as <-. right. exists r. auto.
  - destruct (is_RequestException e0); [discriminate |].
    cbn. intros H. injection H as <-. left. reflexivity.
Qed.

Lemma submit_visitor_permit_raise_origin (env : Env) (vd : pyval) (s : State) (e : exn) :
  fst (submit_visitor_permit env vd s) = Raise e ->
  truthy (access_token (self s)) = true /\
  (network env (List.length (sent s))
     (permit_request (self s) vd (now_isoformat env (clock_reads s))) = Raise e \/
   exists r,
     network env (List.length (sent s))
       (permit_request (self s) vd (now_isoformat env (clock_reads s))) = Ok r /\
     status_code r = 201 /\
     (json r = Raise e \/
      exists v, json r = Ok v /\
                forall d, v = PyDict d ->
                          printable_value (dict_get d "permit_id" PyNone) = false)).
Proof.
  rewrite submit_visitor_permit_run. cbv zeta.
  destruct (truthy (access_token (self s))); [| discriminate]. split; [reflexivity |].
  revert H. destruct (network env _ _) as [r | e0] eqn:Hnet.
  - destruct (Z.eqb_spec (status_code r) 201) as [Hst | Hst]; [| discriminate].
    destruct (json r) as [v | e0] eqn:Hjson.
    + intros H. right. exists r. split; [reflexivity | split; [exact Hst | right]].
      exists v. split; [exact Hjson |]. intros d ->. cbn in H.
      destruct (printable_value (dict_get d "permit_id" PyNone));
        [discriminate H | reflexivity].
    + destruct (is_RequestException e0); [discriminate |].
      cbn. intros H. injection H as <-. right. exists r. auto.
  - destruct (is_RequestException e0); [discriminate |].
    cbn. intros H. injection H as <-. left. reflexivity.
Qed.

Lemma book_event_raise_origin (env : Env) (ev n : pyval) (s : State) (e : exn) :
  fst (book_event env ev n s) = Raise e ->
  truthy (access_token (self s)) = true /\
  (network env (List.length (sent s))
     (booking_request (self s) ev n (now_isoformat env (clock_reads s))) = Raise e \/
   exists r,
     network env (List.length (sent s))
       (booking_request (self s) ev n (now_isoformat env (clock_reads s))) = Ok r /\
     status_code r = 201 /\
     (json r = Raise e \/
      exists v, json r = Ok v /\
                forall d, v = PyDict d ->
                          printable_value (dict_get d "booking_id" PyNone) = false)).
Proof.
  rewrite book_event_run. cbv zeta.
  destruct (truthy (access_token (self s))); [| discriminate]. split; [reflexivity |].
  revert H. destruct (network env _ _) as [r | e0] eqn:Hnet.
  - destruct (Z.eqb_spec (status_code r) 201) as [Hst | Hst]; [| discriminate].
    destruct (json r) as [v | e0] eqn:Hjson.
    + intros H. right. exists r. split; [reflexivity | split; [exact Hst | right]].
      exists v. split; [exact Hjson |]. intros d ->. cbn in H.
      destruct (printable_value (dict_get d "booking_id" PyNone));
        [discriminate H | reflexivity].
    + destruct (is_RequestException e0); [discriminate |].
      cbn. intros H. injection H as <-. right. exists r. auto.
  - destruct (is_RequestException e0); [discriminate |].
    cbn. intros H. injection H as <-. left. reflexivity.
Qed.

(** X14.  A call raises only once its request is on the wire, and then
    only in three ways: the HTTP library raised that exception while
    sending; or the server answered with the success code of the operation
    and decoding the body raised it; or the server answered with the
    success code and the decoded body is not what the success line reads:
    not a JSON object, or an object whose [sites] has no length (for
    [get_heritage_sites]) or whose [permit_id] or [booking_id] standard
    output cannot print (for the two POSTs).  The gate, a failure status
    and the lookups in [ENDPOINTS] never raise. *)
Theorem raise_follows_success_status (env : Env) (op : operation) (s : State) (e : exn)
  (Hraise : outcome_exn (fst (run_operation env op s)) = Some e) :
  exists req,
    request_of env op s = Some req /\
    (network env (List.length (sent s)) req = Raise e \/
     exists r,
       network env (List.length (sent s)) req = Ok r /\
       status_code r = success_code op /\
       (json r = Raise e \/
        exists v, json r = Ok v /\ forall d, v = PyDict d -> unprintable_success op d)).
Proof.
  destruct op as [| | vd | ev n];
    cbn [run_operation fst outcome_exn request_of success_code unprintable_success] in *.
  - destruct (fst (authenticate env s)) as [b | e'] eqn:Hres; [discriminate |].
    injection Hraise as ->.
    exists (auth_request (self s)). split; [reflexivity |].
    destruct (authenticate_raise_origin env s e Hres)
      as [Hnet | (r & Hnet & Hst & [Hjson | (v & Hjson & Hshape)])]; [auto | right ..];
      exists r; repeat (split; [assumption |]); [auto |].
    right. exists v. split; [exact Hjson |]. intros d Hd. destruct (Hshape d Hd).
  - destruct (fst (get_heritage_sites env s)) as [b | e'] eqn:Hres; [discriminate |].
    injection Hraise as ->.
    destruct (get_heritage_sites_raise_origin env s e Hres) as [Htok Horigin].
    rewrite Htok. exists (sites_request (self s)). split; [reflexivity |].
    destruct Horigin as [Hnet | (r & Hnet & Hst & [Hjson | (v & Hjson & Hshape)])];
      [auto | right ..]; exists r; repeat (split; [assumption |]); [auto |].
    right. exists v. split; [exact Hjson | exact Hshape].
  - destruct (fst (submit_visitor_permit env vd s)) as [b | e'] eqn:Hres; [discriminate |].
    injection Hraise as ->.
    destruct (submit_visitor_permit_raise_origin env vd s e Hres) as [Htok Horigin].
    rewrite Htok. eexists. split; [reflexivity |].
    destruct Horigin as [Hnet | (r & Hnet & Hst & [Hjson | (v & Hjson & Hshape)])];
      [auto | right ..]; exists r; repeat (split; [assumption |]); [auto |].
    right. exists v. split; [exact Hjson | exact Hshape].
  - destruct (fst (book_event env ev n s)) as [b | e'] eqn:Hres; [discriminate |].
    injection Hraise as ->.
    destruct (book_event_raise_origin env ev n s e Hres) as [Htok Horigin].
    rewrite Htok. eexists. split; [reflexivity |].
    destruct Horigin as [Hnet | (r & Hnet & Hst & [Hjson | (v & Hjson & Hshape)])];
      [auto | right ..]; exists r; repeat (split; [assumption |]); [auto |].
    right. exists v. split; [exact Hjson | exact Hshape].
Qed.

Lemma raise_follows_success_status_witness :
  exists req,
    request_of
      (const_env (Ok (mkResponse 201 (Ok (PyDict [("permit_id", PyStr surrogate_d800)])))))
      (SubmitVisitorPermit visitor_data) state1 = Some req /\
    (network
       (const_env (Ok (mkResponse 201 (Ok (PyDict [("permit_id", PyStr surrogate_d800)])))))
       (List.length (sent state1)) req = Raise (UnicodeEncodeError "surrogates not allowed") \/
     exists r,
       network
         (const_env (Ok (mkResponse 201 (Ok (PyDict [("permit_id", PyStr surrogate_d800)])))))
         (List.length (sent state1)) req = Ok r /\
       status_code r = 201 /\
       (json r = Raise (UnicodeEncodeError "surrogates not allowed") \/
        exists v,
          json r = Ok v /\
          forall d, v = PyDict d ->
                    printable_value (dict_get d "permit_id" PyNone) = false)).
Proof.
  apply (raise_follows_success_status
           (const_env (Ok (mkResponse 201 (Ok (PyDict [("permit_id", PyStr surrogate_d800)])))))
           (SubmitVisitorPermit visitor_data) state1
           (UnicodeEncodeError "surrogates not allowed")).
  reflexivity.
Defined.

(** ** Concrete runs of the general statements *)

Lemma authenticate_result_iff_witness :
  fst (authenticate (const_env (Ok token_response)) state0) = Ok true /\
  failed_call 200
    (network (const_env (Ok (mkResponse 401 (Ok (PyDict [])))))
       (List.length (sent state0)) (auth_request (self state0))).
Proof.
  split.
  - apply (proj2 (proj1 (authenticate_result_iff (const_env (Ok token_response)) state0))).
    exists token_response, [("access_token", PyStr "tok_1"); ("expires_in", PyInt 3600)].
    repeat split.
  - apply (proj1 (proj2 (authenticate_result_iff
                           (const_env (Ok (mkResponse 401 (Ok (PyDict []))))) state0))).
    reflexivity.
Defined.

Lemma main_bounds_witness :
  is_RequestException (AttributeError "object has no attribute 'get'") = false.
Proof.
  apply (proj2 (main_bounds
                  (mkEnv (fun n _ => match n with
                                     | O => Ok token_response
                                     | S _ => Ok (mkResponse 200 (Ok sites_array))
                                     end)
                         (fun _ => "2024-01-15T10:00:00"))
                  state0)).
  reflexivity.
Defined.
